(** * ResumeAlign backend: the extraction and optimisation pipeline of
    [backend/app.py], embedded in Rocq.

    Python [str] values are lists of Unicode code points, [bytes] values are
    lists of bytes, the values produced by [json.loads] are a tagged union,
    and a coroutine that talks to the outside world (HTTP, headless browser,
    Bedrock, MongoDB) is a function from the state of the world to a result
    or an exception together with the new state.  The state keeps the trace
    of the external calls, so that "is attempted", "is never invoked" and
    "before any query" are statements about that trace. *)

From Stdlib Require Import ZArith NArith List String Ascii Bool Lia.
From Stdlib Require Import Floats.PrimFloat Numbers.Cyclic.Int63.Uint63.
From Stdlib Require Strings.Byte.
From stdpp Require Import base option list gmap.

Import ListNotations.
Set Warnings "-register-all,-inexact-float".
Local Open Scope list_scope.
Local Open Scope N_scope.

(* ===================================================================== *)
(** * Python strings *)
(* ===================================================================== *)

Module PyStr.

(** A Python [str]: the sequence of its code points. *)
Definition char : Type := N.
Definition str : Type := list char.

(** An ASCII literal of the source as a [str]. *)
Definition py (s : string) : str :=
  map N_of_ascii (list_ascii_of_string s).

(** The same with every apostrophe read as a double quote, to write the
    JSON texts of the examples. *)
Definition pyq (s : string) : str :=
  map (fun c => if c =? 39 then 34 else c) (py s).

Definition LF : char := 10.
Definition SP : char := 32.
Definition LBRACE : char := 123.
Definition RBRACE : char := 125.
Definition DQUOTE : char := 34.

(** [str.isspace] on one code point, which is also what [\s] matches in a
    [str] pattern and what [str.strip] removes: the code points CPython's
    [_PyUnicode_IsWhitespace] accepts. *)
Definition isspace (c : char) : bool :=
  ((9 <=? c) && (c <=? 13)) || ((28 <=? c) && (c <=? 32))
  || (c =? 133) || (c =? 160) || (c =? 5760)
  || ((8192 <=? c) && (c <=? 8202))
  || (c =? 8232) || (c =? 8233) || (c =? 8239) || (c =? 8287)
  || (c =? 12288).

(** The line boundaries of [str.splitlines]. *)
Definition is_linebreak (c : char) : bool :=
  ((10 <=? c) && (c <=? 13)) || ((28 <=? c) && (c <=? 30))
  || (c =? 133) || (c =? 8232) || (c =? 8233).

Fixpoint lstrip (s : str) : str :=
  match s with
  | [] => []
  | c :: t => if isspace c then lstrip t else s
  end.

Definition rstrip (s : str) : str := rev (lstrip (rev s)).

(** [s.strip()] *)
Definition strip (s : str) : str := rstrip (lstrip s).

(** [sep.join(parts)] *)
Fixpoint join (sep : str) (parts : list str) : str :=
  match parts with
  | [] => []
  | [p] => p
  | p :: ps => p ++ sep ++ join sep ps
  end.

(** [s.splitlines()]: [cur] is the line being read, last character first.
    A carriage return followed by a line feed is one boundary, and no empty
    line is reported after the last boundary. *)
Fixpoint splitlines_from (cur : str) (s : str) : list str :=
  match s with
  | [] => match cur with [] => [] | _ => [rev cur] end
  | c :: t =>
      if is_linebreak c then
        rev cur ::
          match t with
          | c' :: t' =>
              if (c =? 13) && (c' =? 10) then splitlines_from [] t'
              else splitlines_from [] t
          | [] => splitlines_from [] t
          end
      else splitlines_from (c :: cur) t
  end.

Definition splitlines (s : str) : list str := splitlines_from [] s.

Definition nonempty (s : str) : bool :=
  match s with [] => false | _ => true end.

(** [s.startswith(p)] and [s.endswith(p)] *)
Fixpoint startswith (s p : str) {struct p} : bool :=
  match p, s with
  | [], _ => true
  | _ :: _, [] => false
  | a :: p', b :: s' => (a =? b) && startswith s' p'
  end.

Definition endswith (s p : str) : bool := startswith (rev s) (rev p).

(** [s.lower()] on the ASCII letters.  The only use in the program is the
    test [filename.lower().endswith('.pdf')]; no code point outside ASCII
    lower-cases to a full stop or to one of the letters p, d, f, so the
    test is decided by this part of the mapping. *)
Definition lower_char (c : char) : char :=
  if (65 <=? c) && (c <=? 90) then c + 32 else c.

Definition lower (s : str) : str := map lower_char s.

(** [re.sub(r'\s+', ' ', s)]: every maximal run of whitespace becomes one
    space.  [in_run] says that the previous character was whitespace, so the
    run's replacement is already written. *)
Fixpoint sub_ws (in_run : bool) (s : str) : str :=
  match s with
  | [] => []
  | c :: t =>
      if isspace c then
        if in_run then sub_ws true t else SP :: sub_ws true t
      else c :: sub_ws false t
  end.

Definition re_sub_ws (s : str) : str := sub_ws false s.

(** [s.split()]: the maximal runs of characters that are not whitespace.
    [cur] is the word being read, last character first. *)
Fixpoint split_from (cur : str) (s : str) : list str :=
  match s with
  | [] => match cur with [] => [] | _ => [rev cur] end
  | c :: t =>
      if isspace c then
        match cur with
        | [] => split_from [] t
        | _ => rev cur :: split_from [] t
        end
      else split_from (c :: cur) t
  end.

Definition split_ws (s : str) : list str := split_from [] s.

(** The decimal digits of a natural number, as [str(n)] prints them. *)
Fixpoint digits_fuel (fuel : nat) (n : N) (acc : str) : str :=
  match fuel with
  | O => acc
  | S fuel' =>
      let acc' := (48 + n mod 10) :: acc in
      if n <? 10 then acc' else digits_fuel fuel' (n / 10) acc'
  end.

Definition str_of_N (n : N) : str := digits_fuel (S (N.to_nat (N.log2 n))) n [].

(** A byte as two lower-case hexadecimal digits: the format [%02x], and
    what [binascii.hexlify] writes for it. *)
Definition hex_char (d : N) : char := if d <? 10 then 48 + d else 87 + d.

Definition hex2 (b : N) : str := [hex_char (b / 16); hex_char (b mod 16)].

End PyStr.
Import PyStr.

(** [len(s)] and the slice [s[:n]] *)
Definition len (s : str) : N := N.of_nat (length s).
Definition slice_to (n : N) (s : str) : str := take (N.to_nat n) s.

Fixpoint str_eqb (a b : str) : bool :=
  match a, b with
  | [], [] => true
  | x :: a', y :: b' => (x =? y) && str_eqb a' b'
  | _, _ => false
  end.

(* ===================================================================== *)
(** * Bytes and their UTF-8 decoding *)
(* ===================================================================== *)

Module Utf8.

Definition cont (b : N) : bool := (128 <=? b) && (b <=? 191).

(** The second byte of a three-byte and of a four-byte sequence: the
    ranges that exclude overlong forms, surrogates and code points past
    U+10FFFF, as the strict decoder of [bytes.decode('utf-8')] does. *)
Definition second3 (b0 b1 : N) : bool :=
  if b0 =? 224 then (160 <=? b1) && (b1 <=? 191)
  else if b0 =? 237 then (128 <=? b1) && (b1 <=? 159)
  else cont b1.

Definition second4 (b0 b1 : N) : bool :=
  if b0 =? 240 then (144 <=? b1) && (b1 <=? 191)
  else if b0 =? 244 then (128 <=? b1) && (b1 <=? 143)
  else cont b1.

Fixpoint decode_N (bs : list N) : option str :=
  match bs with
  | [] => Some []
  | b0 :: r0 =>
      if b0 <? 128 then option_map (cons b0) (decode_N r0)
      else
        match r0 with
        | [] => None
        | b1 :: r1 =>
            if (194 <=? b0) && (b0 <=? 223) then
              if cont b1
              then option_map (cons ((b0 - 192) * 64 + (b1 - 128))) (decode_N r1)
              else None
            else
              match r1 with
              | [] => None
              | b2 :: r2 =>
                  if (224 <=? b0) && (b0 <=? 239) then
                    if second3 b0 b1 && cont b2
                    then option_map
                           (cons ((b0 - 224) * 4096 + (b1 - 128) * 64 + (b2 - 128)))
                           (decode_N r2)
                    else None
                  else
                    match r2 with
                    | [] => None
                    | b3 :: r3 =>
                        if (240 <=? b0) && (b0 <=? 244)
                           && second4 b0 b1 && cont b2 && cont b3
                        then option_map
                               (cons ((b0 - 240) * 262144 + (b1 - 128) * 4096
                                      + (b2 - 128) * 64 + (b3 - 128)))
                               (decode_N r3)
                        else None
                    end
              end
        end
  end.

(** [content.decode('utf-8')]: [None] stands for [UnicodeDecodeError]. *)
Definition decode (content : list Byte.byte) : option str :=
  decode_N (map Byte.to_N content).

(** The [UnicodeDecodeError] of the strict decoder, as CPython's
    [unicode_decode_utf8] raises it at the first sequence it cannot read:
    the byte that sequence starts with, the slice [start:stop] of the input
    that is blamed, and the reason.  A start byte outside [C2..F4] is an
    invalid start byte; a second, third or fourth byte outside its range is
    an invalid continuation byte, and the bytes before it are blamed; a
    sequence cut short by the end of the input, all of whose bytes are in
    range, is an unexpected end of data.  [pos] is the index of the head of
    [bs] in the input. *)
Definition invalid_start : str := py "invalid start byte".
Definition invalid_continuation : str := py "invalid continuation byte".
Definition unexpected_end : str := py "unexpected end of data".

Fixpoint first_error (pos : N) (bs : list N) : option (N * N * N * str) :=
  match bs with
  | [] => None
  | b0 :: r0 =>
      if b0 <? 128 then first_error (pos + 1) r0
      else if (b0 <? 194) || (244 <? b0)
      then Some (b0, pos, pos + 1, invalid_start)
      else
        match r0 with
        | [] => Some (b0, pos, pos + 1, unexpected_end)
        | b1 :: r1 =>
            if b0 <? 224 then
              if cont b1 then first_error (pos + 2) r1
              else Some (b0, pos, pos + 1, invalid_continuation)
            else if negb (if b0 <? 240 then second3 b0 b1 else second4 b0 b1)
            then Some (b0, pos, pos + 1, invalid_continuation)
            else
              match r1 with
              | [] => Some (b0, pos, pos + 2, unexpected_end)
              | b2 :: r2 =>
                  if negb (cont b2)
                  then Some (b0, pos, pos + 2, invalid_continuation)
                  else if b0 <? 240 then first_error (pos + 3) r2
                  else
                    match r2 with
                    | [] => Some (b0, pos, pos + 3, unexpected_end)
                    | b3 :: r3 =>
                        if cont b3 then first_error (pos + 4) r3
                        else Some (b0, pos, pos + 3, invalid_continuation)
                    end
              end
        end
  end.

(** [str(e)] of that error: one byte is named with its value, a longer
    slice by its first and last index. *)
Definition error_message (err : N * N * N * str) : str :=
  let '(b0, start, stop, reason) := err in
  if stop =? start + 1 then
    py "'utf-8' codec can't decode byte 0x" ++ hex2 b0
      ++ py " in position " ++ str_of_N start ++ py ": " ++ reason
  else
    py "'utf-8' codec can't decode bytes in position " ++ str_of_N start
      ++ py "-" ++ str_of_N (stop - 1) ++ py ": " ++ reason.

(** [str(e)] for the [UnicodeDecodeError] of [content.decode('utf-8')];
    the empty text when the content decodes. *)
Definition error_str (content : list Byte.byte) : str :=
  match first_error 0 (map Byte.to_N content) with
  | Some err => error_message err
  | None => []
  end.

(** The UTF-8 bytes of an ASCII literal, for the examples. *)
Definition ascii_bytes (s : string) : list Byte.byte :=
  map byte_of_ascii (list_ascii_of_string s).

End Utf8.

(* ===================================================================== *)
(** * Identifiers: [bson.ObjectId] *)
(* ===================================================================== *)

Module Bson.

(** The value of a hexadecimal digit. *)
Definition hex_digit (c : char) : option N :=
  if (48 <=? c) && (c <=? 57) then Some (c - 48)
  else if (97 <=? c) && (c <=? 102) then Some (c - 87)
  else if (65 <=? c) && (c <=? 70) then Some (c - 55)
  else None.

(** The ASCII whitespace [bytes.fromhex] skips: space, tab, line feed,
    vertical tab, form feed and carriage return. *)
Definition ascii_space (c : char) : bool :=
  (c =? 32) || ((9 <=? c) && (c <=? 13)).

(** [bytes.fromhex(s)]: whitespace is skipped before every pair of digits
    and after the last one, the two digits of a pair stand together;
    [None] stands for [ValueError]. *)
Fixpoint fromhex (s : str) : option (list N) :=
  match s with
  | [] => Some []
  | c :: t =>
      if ascii_space c then fromhex t
      else
        match hex_digit c, t with
        | Some hi, c' :: t' =>
            match hex_digit c' with
            | Some lo => option_map (cons (hi * 16 + lo)) (fromhex t')
            | None => None
            end
        | _, _ => None
        end
  end.

(** [ObjectId(s)] for a [str]: a text of 24 characters that [bytes.fromhex]
    reads becomes the identifier's bytes; [None] stands for [InvalidId]. *)
Definition ObjectId (s : str) : option (list N) :=
  if len s =? 24 then fromhex s else None.

(** [ObjectId.is_valid(s)]: false for the empty text, and otherwise whether
    the constructor accepts it. *)
Definition is_valid (s : str) : bool :=
  nonempty s && match ObjectId s with Some _ => true | None => false end.

(** [str(oid)]: [binascii.hexlify] of the bytes. *)
Definition hexlify (bs : list N) : str := flat_map hex2 bs.

End Bson.

(** An [ObjectId], as its bytes: twelve of them for every identifier the
    driver generates. *)
Definition oid : Type := list N.

(* ===================================================================== *)
(** * Python values and exceptions *)
(* ===================================================================== *)

(** The values [json.loads] builds, which are also the values of the
    dictionaries the program builds itself and of the documents of the
    store (these also hold an [ObjectId]).  A [dict] keeps its keys in
    insertion order. *)
Inductive pyval : Type :=
| VNone
| VBool (b : bool)
| VInt (z : Z)
| VFloat (f : float)
| VStr (s : str)
| VList (l : list pyval)
| VDict (d : list (str * pyval))
| VObjectId (id : oid).

(** [d.get(k)] on the association list of a [dict]. *)
Fixpoint dict_get (k : str) (d : list (str * pyval)) : option pyval :=
  match d with
  | [] => None
  | (k', v) :: d' => if str_eqb k k' then Some v else dict_get k d'
  end.

(** [d[k] = v]: an existing key keeps its place. *)
Fixpoint dict_set (k : str) (v : pyval) (d : list (str * pyval))
  : list (str * pyval) :=
  match d with
  | [] => [(k, v)]
  | (k', v') :: d' =>
      if str_eqb k k' then (k, v) :: d' else (k', v') :: dict_set k v d'
  end.

(** The exception classes the program tells apart.  Every exception of the
    model is an instance of [Exception]: the handlers of the program are all
    [except Exception] or narrower, and what is not an [Exception]
    (cancellation, interrupts) is outside the model. *)
Inductive exn_class : Type :=
| JSONDecodeError
| UnicodeDecodeError
| KeyError
| TypeError
| HTTPException (status_code : Z)
| OtherException.

(** An exception with [str(e)] (for an [HTTPException], its detail). *)
Record exn : Type := Exn { exn_type : exn_class; exn_str : str }.

Definition is_JSONDecodeError (e : exn) : bool :=
  match exn_type e with JSONDecodeError => true | _ => false end.

(** The name of a value's type, as error messages print it. *)
Definition type_name (v : pyval) : str :=
  match v with
  | VNone => py "NoneType"
  | VBool _ => py "bool"
  | VInt _ => py "int"
  | VFloat _ => py "float"
  | VStr _ => py "str"
  | VList _ => py "list"
  | VDict _ => py "dict"
  | VObjectId _ => py "ObjectId"
  end.

(** [v[key]] for a string key, as the handlers index the optimisation
    result, with the messages of CPython 3.11. *)
Definition getitem (v : pyval) (key : str) : exn + pyval :=
  match v with
  | VDict d =>
      match dict_get key d with
      | Some x => inr x
      | None => inl (Exn KeyError ([39] ++ key ++ [39]))
      end
  | VList _ => inl (Exn TypeError (py "list indices must be integers or slices, not str"))
  | VStr _ => inl (Exn TypeError (py "string indices must be integers, not 'str'"))
  | _ => inl (Exn TypeError (py "'" ++ type_name v ++ py "' object is not subscriptable"))
  end.

(** [0 <= x <= 1] for a Python number; [false] for what is not a number. *)
Definition in_unit_interval (v : pyval) : bool :=
  match v with
  | VInt z => ((0 <=? z) && (z <=? 1))%Z
  | VFloat f => (PrimFloat.leb 0 f && PrimFloat.leb f 1)%bool
  | VBool _ => true
  | _ => false
  end.

(** The field [match_score] is present and lies in [0, 1]. *)
Definition match_score_ok (result : pyval) : bool :=
  match result with
  | VDict d =>
      match dict_get (py "match_score") d with
      | Some x => in_unit_interval x
      | None => false
      end
  | _ => false
  end.

(* ===================================================================== *)
(** * A JSON decoder for the examples *)
(* ===================================================================== *)

(** [json.loads] belongs to Python's library, not to the repository: the
    program is given a decoder as part of its environment (see [env]) and
    every general theorem holds for any decoder.  The examples need a
    concrete one.  This module follows CPython's scanner on the fragment of
    JSON without [\u] escapes and without exponents, with numbers of at most
    fifteen decimals; a text outside the fragment is reported as not
    decodable, so only texts inside it are used below. *)
Module JsonFragment.

Inductive pres (A : Type) : Type :=
| POk (v : A) (rest : str) (pos : N)
| PErr (msg : str) (pos : N).
Arguments POk {A} v rest pos.
Arguments PErr {A} msg pos.

(** The whitespace of the scanner: space, tab, line feed, carriage return. *)
Definition is_ws (c : char) : bool :=
  (c =? 32) || (c =? 9) || (c =? 10) || (c =? 13).

Fixpoint skip_ws (s : str) (pos : N) : str * N :=
  match s with
  | c :: t => if is_ws c then skip_ws t (pos + 1) else (s, pos)
  | [] => (s, pos)
  end.

Definition unescape (c : char) : option char :=
  if c =? 34 then Some 34 else if c =? 92 then Some 92
  else if c =? 47 then Some 47 else if c =? 98 then Some 8
  else if c =? 102 then Some 12 else if c =? 110 then Some 10
  else if c =? 114 then Some 13 else if c =? 116 then Some 9
  else None.

(** The body of a string, read after its opening quote at [begin]. *)
Fixpoint scan_string (s : str) (pos begin : N) (acc : str) : pres str :=
  match s with
  | [] => PErr (py "Unterminated string starting at") begin
  | c :: t =>
      if c =? 34 then POk (rev acc) t (pos + 1)
      else if c =? 92 then
        match t with
        | [] => PErr (py "Unterminated string starting at") begin
        | e :: t' =>
            match unescape e with
            | Some ch => scan_string t' (pos + 2) begin (ch :: acc)
            | None => PErr (py "Invalid \escape") pos
            end
        end
      else if c <=? 31 then PErr (py "Invalid control character at") pos
      else scan_string t (pos + 1) begin (c :: acc)
  end.

Definition is_digit (c : char) : bool := (48 <=? c) && (c <=? 57).

(** A run of digits: its value, its length, and what follows. *)
Fixpoint scan_digits (s : str) (acc : N) (n : N) : N * N * str :=
  match s with
  | c :: t => if is_digit c then scan_digits t (acc * 10 + (c - 48)) (n + 1)
              else (acc, n, s)
  | [] => (acc, n, s)
  end.

Definition float_of_N (n : N) : float :=
  PrimFloat.of_uint63 (Uint63.of_Z (Z.of_N n)).

(** A number, read at its first digit ([neg] when a minus sign came first).
    An integer literal is an [int]; a literal with a fraction is a [float],
    the quotient of two exactly represented integers, which is the
    correctly rounded value of the literal. *)
Definition scan_number (neg : bool) (s : str) (pos : N) : pres pyval :=
  match s with
  | c :: t =>
      if is_digit c then
        let '(ipart, ilen, rest) :=
          if c =? 48 then (0, 1, t) else scan_digits s 0 0 in
        match rest with
        | d :: (f :: _) as frac =>
            if (d =? 46) && is_digit f then
              let '(fpart, flen, rest') := scan_digits frac 0 0 in
              let m := ipart * 10 ^ flen + fpart in
              if (flen <=? 15) && (m <? 2 ^ 53) then
                let x := PrimFloat.div (float_of_N m) (float_of_N (10 ^ flen)) in
                POk (VFloat (if neg then PrimFloat.opp x else x)) rest'
                    (pos + ilen + 1 + flen)
              else PErr (py "number outside the modelled fragment") pos
            else if (d =? 101) || (d =? 69) then
              PErr (py "number outside the modelled fragment") pos
            else POk (VInt (if neg then - Z.of_N ipart else Z.of_N ipart)) rest
                     (pos + ilen)
        | [d] =>
            if (d =? 101) || (d =? 69) then
              PErr (py "number outside the modelled fragment") pos
            else POk (VInt (if neg then - Z.of_N ipart else Z.of_N ipart)) rest
                     (pos + ilen)
        | [] => POk (VInt (if neg then - Z.of_N ipart else Z.of_N ipart)) rest
                    (pos + ilen)
        end
      else PErr (py "Expecting value") (if neg then pos - 1 else pos)
  | [] => PErr (py "Expecting value") (if neg then pos - 1 else pos)
  end.

(** A literal word at the head of [s]. *)
Definition literal (w : string) (v : pyval) (s : str) (pos : N) : pres pyval :=
  if startswith s (py w)
  then POk v (drop (length (py w)) s) (pos + len (py w))
  else PErr (py "Expecting value") pos.

(** The scanner proper.  [fuel] bounds the calls; [json_loads] gives it
    more than a text can use. *)
Fixpoint scan_once (fuel : nat) (s : str) (pos : N) : pres pyval :=
  match fuel with
  | O => PErr (py "Expecting value") pos
  | S fuel' =>
      match s with
      | [] => PErr (py "Expecting value") pos
      | c :: t =>
          if c =? 34 then
            match scan_string t (pos + 1) pos [] with
            | POk x rest p => POk (VStr x) rest p
            | PErr m p => PErr m p
            end
          else if c =? 123 then
            let '(s1, p1) := skip_ws t (pos + 1) in
            match s1 with
            | c1 :: t1 =>
                if c1 =? 125 then POk (VDict []) t1 (p1 + 1)
                else scan_members fuel' [] s1 p1
            | [] => scan_members fuel' [] s1 p1
            end
          else if c =? 91 then
            let '(s1, p1) := skip_ws t (pos + 1) in
            match s1 with
            | c1 :: t1 =>
                if c1 =? 93 then POk (VList []) t1 (p1 + 1)
                else scan_elements fuel' [] s1 p1
            | [] => scan_elements fuel' [] s1 p1
            end
          else if c =? 110 then literal "null" VNone s pos
          else if c =? 116 then literal "true" (VBool true) s pos
          else if c =? 102 then literal "false" (VBool false) s pos
          else if c =? 78 then literal "NaN" (VFloat PrimFloat.nan) s pos
          else if c =? 73 then literal "Infinity" (VFloat PrimFloat.infinity) s pos
          else if c =? 45 then
            match t with
            | c1 :: _ =>
                if c1 =? 73
                then literal "-Infinity" (VFloat PrimFloat.neg_infinity) s pos
                else scan_number true t (pos + 1)
            | [] => PErr (py "Expecting value") pos
            end
          else scan_number false s pos
      end
  end
with scan_members (fuel : nat) (acc : list (str * pyval)) (s : str) (pos : N)
  : pres pyval :=
  match fuel with
  | O => PErr (py "Expecting value") pos
  | S fuel' =>
      match s with
      | c :: t =>
          if c =? 34 then
            match scan_string t (pos + 1) pos [] with
            | PErr m p => PErr m p
            | POk key s1 p1 =>
                let '(s2, p2) := skip_ws s1 p1 in
                match s2 with
                | c2 :: t2 =>
                    if c2 =? 58 then
                      let '(s3, p3) := skip_ws t2 (p2 + 1) in
                      match scan_once fuel' s3 p3 with
                      | PErr m p => PErr m p
                      | POk v s4 p4 =>
                          let acc' := dict_set key v acc in
                          let '(s5, p5) := skip_ws s4 p4 in
                          match s5 with
                          | c5 :: t5 =>
                              if c5 =? 125 then POk (VDict acc') t5 (p5 + 1)
                              else if c5 =? 44 then
                                let '(s6, p6) := skip_ws t5 (p5 + 1) in
                                scan_members fuel' acc' s6 p6
                              else PErr (py "Expecting ',' delimiter") p5
                          | [] => PErr (py "Expecting ',' delimiter") p5
                          end
                      end
                    else PErr (py "Expecting ':' delimiter") p2
                | [] => PErr (py "Expecting ':' delimiter") p2
                end
            end
          else PErr (py "Expecting property name enclosed in double quotes") pos
      | [] => PErr (py "Expecting property name enclosed in double quotes") pos
      end
  end
with scan_elements (fuel : nat) (acc : list pyval) (s : str) (pos : N)
  : pres pyval :=
  match fuel with
  | O => PErr (py "Expecting value") pos
  | S fuel' =>
      match scan_once fuel' s pos with
      | PErr m p => PErr m p
      | POk v s1 p1 =>
          let '(s2, p2) := skip_ws s1 p1 in
          match s2 with
          | c2 :: t2 =>
              if c2 =? 93 then POk (VList (acc ++ [v])) t2 (p2 + 1)
              else if c2 =? 44 then
                let '(s3, p3) := skip_ws t2 (p2 + 1) in
                scan_elements fuel' (acc ++ [v]) s3 p3
              else PErr (py "Expecting ',' delimiter") p2
          | [] => PErr (py "Expecting ',' delimiter") p2
          end
      end
  end.

(** The text of a [JSONDecodeError]:
    [msg: line L column C (char P)]. *)
Definition count_lf (s : str) : N :=
  N.of_nat (length (filter (fun c => c =? LF) s)).

Fixpoint after_last_lf (s cur : str) : str :=
  match s with
  | [] => cur
  | c :: t => if c =? LF then after_last_lf t [] else after_last_lf t (c :: cur)
  end.

Definition decode_error (msg doc : str) (pos : N) : exn :=
  let before := slice_to pos doc in
  Exn JSONDecodeError
      (msg ++ py ": line " ++ str_of_N (count_lf before + 1)
           ++ py " column " ++ str_of_N (len (after_last_lf before []) + 1)
           ++ py " (char " ++ str_of_N pos ++ py ")").

(** [json.loads(doc)] for a [str]. *)
Definition json_loads (doc : str) : exn + pyval :=
  let '(s0, p0) := skip_ws doc 0 in
  match scan_once (S (length doc)) s0 p0 with
  | PErr m p => inl (decode_error m doc p)
  | POk v rest p =>
      let '(rest', p') := skip_ws rest p in
      match rest' with
      | [] => inr v
      | _ => inl (decode_error (py "Extra data") doc p')
      end
  end.

End JsonFragment.

(* ===================================================================== *)
(** * The outside world *)
(* ===================================================================== *)

(** The calls that leave the process, in the order they are made. *)
Inductive event : Type :=
| EvHttpGet (url : str)
    (** the static fetcher's GET *)
| EvPlaywright (url : str)
    (** one run of [scrape_with_playwright] *)
| EvInvokeModel (model_id : str) (request_body : pyval)
    (** [bedrock.invoke_model] *)
| EvInsertOne (doc : list (str * pyval))
| EvFindOne (id : oid)
| EvDeleteOne (id : oid).

(** What the program cannot decide itself.  An answer of a remote service
    may depend on everything that was called before, so each such answer is
    a function of the trace so far; library functions are plain functions. *)
Record env : Type := Env {
  (** lines 186-198: the GET with [raise_for_status], the parse, the
      removal of script and style elements and [soup.get_text()]; either
      that text or the exception one of these steps raised *)
  http_get_text : list event -> str -> exn + str;
  (** lines 58-79 and 87-88: launching the browser, loading the page and
      [h.handle(content)], with the browser closed on the way out *)
  playwright_text : list event -> str -> exn + str;
  (** [boto3.client(...)]: [Some e] when it raises [e] *)
  boto3_client : list event -> option exn;
  (** [bedrock.invoke_model(...)] followed by the reading of the reply's
      first text block, [json.loads(response['body'].read())]
      [['content'][0]['text']]: that text, or the exception raised on the
      way (unreachable service, throttling, non-2xx answer, reply of
      another shape) *)
  invoke_model_text : list event -> str -> pyval -> exn + str;
  (** [json.loads] on a [str] *)
  json_loads : str -> exn + pyval;
  (** [PyPDF2.PdfReader(io.BytesIO(content)).pages], each page with the
      outcome of its [extract_text()] *)
  pdf_pages : list Byte.byte -> exn + list (exn + str);
  (** [bson.ObjectId.is_valid] and the constructor [bson.ObjectId], which
      the handlers call on a text the validator accepted; [Bson] above
      follows the library for both *)
  ObjectId_is_valid : str -> bool;
  ObjectId : str -> oid;
  (** the identifier the driver gives an inserted document, and [str] of
      an identifier *)
  new_ObjectId : list event -> oid;
  str_of_ObjectId : oid -> str;
  (** a store operation that fails: the exception the driver raises, and
      whether the operation had reached the collection when it was raised
      (the server cannot be reached; the connection is lost before the
      acknowledgement arrives) *)
  store_fault : list event -> option (exn * bool);
  (** the pydantic constructors [ResumeOptimization(...)] (followed by
      [model_dump(by_alias=True, exclude={'id'})]) and
      [ResumeResponse(...)] on their keyword arguments: the document, or
      the validation error *)
  make_ResumeOptimization :
    list event -> list (str * pyval) -> exn + list (str * pyval);
  make_ResumeResponse : list (str * pyval) -> exn + pyval
}.

(** The state of the world: the calls made so far, oldest first, and the
    optimisations collection. *)
Record state : Type := State {
  trace : list event;
  store : gmap oid (list (str * pyval))
}.

(** A computation of the program: from a state to a value or an exception,
    and the state it leaves. *)
Definition M (A : Type) : Type := state -> (exn + A) * state.

Definition ret {A} (a : A) : M A := fun st => (inr a, st).

Definition raise {A} (e : exn) : M A := fun st => (inl e, st).

Definition bind {A B} (m : M A) (k : A -> M B) : M B :=
  fun st =>
    match m st with
    | (inr a, st') => k a st'
    | (inl e, st') => (inl e, st')
    end.

(** [try: body / except Exception as e: handler e]: what the body did to the
    world before it raised stays done. *)
Definition try_except {A} (body : M A) (handler : exn -> M A) : M A :=
  fun st =>
    match body st with
    | (inr a, st') => (inr a, st')
    | (inl e, st') => handler e st'
    end.

Definition lift {A} (r : exn + A) : M A := fun st => (r, st).

Definition get_trace : M (list event) := fun st => (inr (trace st), st).

Definition emit (ev : event) : M unit :=
  fun st => (inr tt, State (trace st ++ [ev]) (store st)).

Declare Scope py_scope.
Delimit Scope py_scope with py.
Notation "'let*' x ':=' c 'in' k" := (bind c (fun x => k))
  (at level 10, x pattern, c at level 100, k at level 200) : py_scope.
Notation "c ';;;' k" := (bind c (fun _ => k))
  (at level 100, k at level 200, right associativity) : py_scope.
Local Open Scope py_scope.

(** The events of a trace that are runs of the rendered fetcher. *)
Definition is_playwright (ev : event) : bool :=
  match ev with EvPlaywright _ => true | _ => false end.

Definition is_store_query (ev : event) : bool :=
  match ev with
  | EvInsertOne _ | EvFindOne _ | EvDeleteOne _ => true
  | _ => false
  end.

Definition playwright_attempts (tr : list event) : nat :=
  length (filter is_playwright tr).

(** The calls a computation makes when started in [st]. *)
Definition calls {A} (m : M A) (st : state) : list event :=
  drop (length (trace st)) (trace (snd (m st))).

Definition result {A} (m : M A) (st : state) : exn + A := fst (m st).

(** The state after some more calls. *)
Definition after (st : state) (evs : list event) : state :=
  State (trace st ++ evs) (store st).

(* ===================================================================== *)
(** * The program: [backend/app.py] *)
(* ===================================================================== *)

(** [lines = [line.strip() for line in text.splitlines() if line.strip()]]
    followed by [' '.join(lines)] (lines 82-83 and 199-200). *)
Definition normalize_lines (text : str) : str :=
  join [SP] (filter nonempty (map strip (splitlines text))).

Definition MODEL_ID : str := py "anthropic.claude-3-sonnet-20240229-v1:0".

(** The request body both LLM calls build (lines 135-145 and 303-313). *)
Definition request_body (max_tokens : Z) (temperature : float) (prompt : str)
  : pyval :=
  VDict [ (py "anthropic_version", VStr (py "bedrock-2023-05-31"));
          (py "max_tokens", VInt max_tokens);
          (py "messages",
            VList [VDict [ (py "role", VStr (py "user"));
                           (py "content", VStr prompt) ]]);
          (py "temperature", VFloat temperature) ].

(** The prompt of the cleanser (lines 108-131), line by line. *)
Definition cleanse_prompt (raw_text : str) : str :=
  join [LF]
    [ py "Extract only the relevant job posting information from the following webpage content. ";
      py "    Remove all boilerplate text such as:";
      py "    - Company policies about equal opportunity employment";
      py "    - Disability/accessibility statements";
      py "    - Cookie policies";
      py "    - Navigation menus";
      py "    - Footer information";
      py "    - Legal disclaimers";
      py "    - Generic company marketing text";
      py "    ";
      py "    Keep only:";
      py "    - Job title";
      py "    - Job description";
      py "    - Required qualifications and skills";
      py "    - Responsibilities";
      py "    - Nice-to-have skills";
      py "    - Salary/benefits information (if present)";
      py "    - Location";
      py "    - Job type (full-time, contract, etc.)";
      py "    ";
      py "    Raw webpage content:";
      py "    " ++ slice_to 8000 raw_text;
      py "    ";
      py "    Return only the cleaned job posting content, nothing else." ].

(** The prompt of the optimiser (lines 281-299). *)
Definition optimize_prompt (job_posting resume : str) : str :=
  join [LF]
    [ py "You are an expert resume writer. Given a job posting and a current resume, ";
      py "    create an optimized version of the resume that:";
      py "    1. Highlights skills and experiences most relevant to the job";
      py "    2. Uses keywords from the job posting appropriately";
      py "    3. Maintains truthfulness - only reorganize and emphasize existing content";
      py "    4. Follows best resume practices";
      py "    ";
      py "    Job Posting:";
      py "    " ++ slice_to 3000 job_posting ++ py "  # Limit to avoid token limits";
      py "    ";
      py "    Current Resume:";
      py "    " ++ slice_to 3000 resume ++ py "  # Limit to avoid token limits";
      py "    ";
      py "    Provide the response in JSON format with exactly these fields:";
      pyq "    - 'optimized_resume': The improved resume text";
      pyq "    - 'suggestions': List of specific improvements made";
      pyq "    - 'match_score': A score from 0-1 indicating how well the resume matches the job";
      py "    ";
      py "    Return only valid JSON, no additional text." ].

(** The request of the cleanser (lines 135-145). *)
Definition cleanse_request (raw_text : str) : pyval :=
  request_body 2000 0.1%float (cleanse_prompt raw_text).

(** The request of the optimiser (lines 303-313). *)
Definition optimize_request (job_posting resume : str) : pyval :=
  request_body 4000 0.7%float (optimize_prompt job_posting resume).

(** [re.search(r'\{[\s\S]*\}', s)]: the search takes the leftmost opening
    brace, and the greedy star then runs to the last closing brace after
    it.  When no closing brace follows the leftmost opening brace, none
    follows a later one either, and there is no match. *)
Fixpoint from_first_lbrace (s : str) : option str :=
  match s with
  | [] => None
  | c :: t => if c =? LBRACE then Some t else from_first_lbrace t
  end.

Fixpoint upto_last_rbrace (s : str) : option str :=
  match s with
  | [] => None
  | c :: t =>
      match upto_last_rbrace t with
      | Some m => Some (c :: m)
      | None => if c =? RBRACE then Some [c] else None
      end
  end.

Definition re_search_braces (s : str) : option str :=
  match from_first_lbrace s with
  | Some t =>
      match upto_last_rbrace t with
      | Some m => Some (LBRACE :: m)
      | None => None
      end
  | None => None
  end.

(** The three fallback dictionaries of [optimize_resume_with_llm]
    (lines 270-279, 340-349 and 352-361). *)
Definition fallback (resume : str) (suggestions : list str) : pyval :=
  VDict [ (py "optimized_resume", VStr resume);
          (py "suggestions", VList (map VStr suggestions));
          (py "match_score", VFloat 0.5%float) ].

Definition fallback_no_credentials (resume : str) : pyval :=
  fallback resume
    [ py "Add AWS credentials to .env file for AI-powered optimization";
      py "Review job requirements and align your skills";
      py "Highlight relevant experience";
      py "Use keywords from the job posting" ].

Definition fallback_json_error (resume : str) (e : exn) : pyval :=
  fallback resume
    [ py "AI response parsing error";
      py "Please review job requirements manually";
      py "Consider adding keywords from the job posting";
      py "JSON Error: " ++ exn_str e ].

Definition fallback_api_error (resume : str) (e : exn) : pyval :=
  fallback resume
    [ py "Could not connect to AWS Bedrock service";
      py "Please check AWS credentials and permissions";
      py "Ensure you have access to Claude model in Bedrock";
      py "Error: " ++ exn_str e ].

Definition HTTP (status : Z) (detail : str) : exn :=
  Exn (HTTPException status) detail.

(** [parse_text_resume] (lines 248-252). *)
Definition parse_text_resume (content : str) : str :=
  strip (re_sub_ws content).

(** The loop of [parse_pdf_resume] (lines 241-243):
    [text += page.extract_text() + "\n"] for every page. *)
Fixpoint pdf_text (text : str) (pages : list (exn + str)) : exn + str :=
  match pages with
  | [] => inr text
  | inl e :: _ => inl e
  | inr t :: rest => pdf_text (text ++ (t ++ [LF])) rest
  end.

Section Backend.

Variable W : env.

(** [scrape_with_playwright] (lines 54-88). *)
Definition scrape_with_playwright (url : str) : M str :=
  let* tr := get_trace in
  emit (EvPlaywright url) ;;;
  let* text := lift (playwright_text W tr url) in
  ret (normalize_lines text).

(** One LLM call: the request goes out, the reply's text comes back. *)
Definition invoke_model (body : pyval) : M str :=
  let* tr := get_trace in
  emit (EvInvokeModel MODEL_ID body) ;;;
  lift (invoke_model_text W tr MODEL_ID body).

(** [boto3.client(...)] under its own [try] (lines 96-106 and 260-279):
    [inl e] when it raised. *)
Definition make_client : M (exn + unit) :=
  let* tr := get_trace in
  ret (match boto3_client W tr with Some e => inl e | None => inr tt end).

(** [cleanse_job_posting_with_llm] (lines 90-165). *)
Definition cleanse_job_posting_with_llm (raw_text : str) : M str :=
  let* bedrock := make_client in
  match bedrock with
  | inl _ => ret (slice_to 5000 raw_text)
  | inr _ =>
      let prompt := cleanse_prompt raw_text in
      try_except
        (let* cleaned_text :=
           invoke_model (request_body 2000 0.1%float prompt) in
         ret cleaned_text)
        (fun _ => ret (slice_to 5000 raw_text))
  end.

Definition extract_error_msg : str :=
  py "Unable to extract job posting content. The page might be protected or require manual access.".

Definition scrape_error_msg (e : exn) : str :=
  py "Unable to scrape job posting. Error: " ++ exn_str e.

(** [scrape_job_posting] (lines 167-235).  The result is the pair
    [(cleansed, raw)]. *)
Definition scrape_job_posting (url : str) : M (str * str) :=
  try_except
    (let* tr := get_trace in
     emit (EvHttpGet url) ;;;
     let* soup_text := lift (http_get_text W tr url) in
     let text := normalize_lines soup_text in
     if 500 <? len text then
       let* cleansed_text := cleanse_job_posting_with_llm text in
       ret (cleansed_text, text)
     else
       let* text := scrape_with_playwright url in
       if 100 <? len text then
         let* cleansed_text := cleanse_job_posting_with_llm text in
         ret (cleansed_text, text)
       else
         ret (extract_error_msg, extract_error_msg))
    (fun e =>
       let* retry :=
         try_except
           (let* text := scrape_with_playwright url in
            if 100 <? len text then
              let* cleansed_text := cleanse_job_posting_with_llm text in
              ret (Some (cleansed_text, text))
            else ret None)
           (fun _ => ret None) in
       match retry with
       | Some r => ret r
       | None => ret (scrape_error_msg e, scrape_error_msg e)
       end).

(** [parse_pdf_resume] (lines 237-246). *)
Definition parse_pdf_resume (file_content : list Byte.byte) : M str :=
  try_except
    (let* pages := lift (pdf_pages W file_content) in
     let* text := lift (pdf_text [] pages) in
     ret (strip text))
    (fun e => raise (HTTP 400 (py "Error parsing PDF: " ++ exn_str e))).

(** [optimize_resume_with_llm] (lines 254-361). *)
Definition optimize_resume_with_llm (job_posting resume : str) : M pyval :=
  let* bedrock := make_client in
  match bedrock with
  | inl _ => ret (fallback_no_credentials resume)
  | inr _ =>
      let prompt := optimize_prompt job_posting resume in
      try_except
        (let* claude_response :=
           invoke_model (request_body 4000 0.7%float prompt) in
         let* result :=
           match re_search_braces claude_response with
           | Some json_match => lift (json_loads W json_match)
           | None => lift (json_loads W claude_response)
           end in
         ret result)
        (fun e =>
           if is_JSONDecodeError e
           then ret (fallback_json_error resume e)
           else ret (fallback_api_error resume e))
  end.

(** The operations of the optimisations collection.  Each is one query,
    which acts on the collection and answers, or fails; a query that fails
    may have acted on the collection all the same. *)
Definition store_call {A} (ev : event)
    (op : gmap oid (list (str * pyval)) ->
          A * gmap oid (list (str * pyval))) : M A :=
  let* tr := get_trace in
  emit ev ;;;
  match store_fault W tr with
  | Some (e, reached) =>
      fun st =>
        (inl e,
         if reached then State (trace st) (snd (op (store st))) else st)
  | None =>
      fun st => let '(a, s') := op (store st) in (inr a, State (trace st) s')
  end.

(** [collection.insert_one(doc)]: the inserted identifier. *)
Definition insert_one (doc : list (str * pyval)) : M oid :=
  let* tr := get_trace in
  let id := new_ObjectId W tr in
  store_call (EvInsertOne doc)
    (fun s => (id, <[id := (py "_id", VObjectId id) :: doc]> s)).

(** [collection.find_one({"_id": id})] *)
Definition find_one (id : oid) : M (option (list (str * pyval))) :=
  store_call (EvFindOne id) (fun s => (s !! id, s)).

(** [collection.delete_one({"_id": id})]: the [deleted_count]. *)
Definition delete_one (id : oid) : M Z :=
  store_call (EvDeleteOne id)
    (fun s => match s !! id with
              | Some _ => (1%Z, delete id s)
              | None => (0%Z, s)
              end).

(** Lines 392-399 of [optimize_resume]: the resume text of a request. *)
Definition parse_resume
    (resume_file : option (str * list Byte.byte)) (resume_text : option str)
  : M str :=
  match resume_file with
  | Some (filename, content) =>
      if endswith (lower filename) (py ".pdf") then parse_pdf_resume content
      else
        match Utf8.decode content with
        | Some text => ret (parse_text_resume text)
        | None =>
            raise (Exn UnicodeDecodeError (Utf8.error_str content))
        end
  | None =>
      match resume_text with
      | Some text => ret (parse_text_resume text)
      | None =>
          raise (Exn TypeError
                   (py "expected string or bytes-like object, got 'NoneType'"))
      end
  end.

(** Lines 404-430 and 448-474, the same in both handlers: the record is
    built and inserted, and the response is built from it. *)
Definition save_and_respond
    (job_url job_posting_cleansed job_posting_raw resume_content : str)
    (optimization_result : pyval) : M pyval :=
  let* optimized := lift (getitem optimization_result (py "optimized_resume")) in
  let* suggestions := lift (getitem optimization_result (py "suggestions")) in
  let* score := lift (getitem optimization_result (py "match_score")) in
  let* tr := get_trace in
  let* doc_dict :=
    lift (make_ResumeOptimization W tr
            [ (py "user_email", VStr (py "anonymous@example.com"));
              (py "job_url", VStr job_url);
              (py "job_posting_content", VStr job_posting_cleansed);
              (py "job_posting_raw", VStr job_posting_raw);
              (py "original_resume", VStr resume_content);
              (py "optimized_resume", optimized);
              (py "suggestions", suggestions);
              (py "match_score", score) ]) in
  let* inserted_id := insert_one doc_dict in
  lift (make_ResumeResponse W
          [ (py "id", VStr (str_of_ObjectId W inserted_id));
            (py "optimized_resume", optimized);
            (py "suggestions", suggestions);
            (py "match_score", score);
            (py "created_at",
              match dict_get (py "created_at") doc_dict with
              | Some t => t
              | None => VNone
              end);
            (py "job_posting_content", VStr job_posting_cleansed) ]).

(** [POST /optimize] (lines 367-430). *)
Definition optimize_resume (job_url : str)
    (resume_file : option (str * list Byte.byte)) (resume_text : option str)
  : M pyval :=
  match resume_file, resume_text with
  | None, None | None, Some [] =>
      raise (HTTP 400 (py "Either resume_file or resume_text must be provided"))
  | _, _ =>
      let* scraped := scrape_job_posting job_url in
      let '(job_posting_cleansed, job_posting_raw) := scraped in
      let* resume_content := parse_resume resume_file resume_text in
      let* optimization_result :=
        optimize_resume_with_llm job_posting_cleansed resume_content in
      save_and_respond job_url job_posting_cleansed job_posting_raw
                       resume_content optimization_result
  end.

(** [POST /optimize-json] (lines 432-474): the request is a URL and an
    optional resume text. *)
Definition optimize_resume_json (url : str) (resume_text : option str)
  : M pyval :=
  let* scraped := scrape_job_posting url in
  let '(job_posting_cleansed, job_posting_raw) := scraped in
  match resume_text with
  | None | Some [] =>
      raise (HTTP 400 (py "resume_text must be provided in JSON request"))
  | Some text =>
      let resume_content := parse_text_resume text in
      let* optimization_result :=
        optimize_resume_with_llm job_posting_cleansed resume_content in
      save_and_respond url job_posting_cleansed job_posting_raw
                       resume_content optimization_result
  end.

(** [GET /api/optimizations/{optimization_id}] (lines 484-498). *)
Definition get_optimization (optimization_id : str) : M pyval :=
  if negb (ObjectId_is_valid W optimization_id) then
    raise (HTTP 400 (py "Invalid optimization ID"))
  else
    let* optimization := find_one (ObjectId W optimization_id) in
    match optimization with
    | None | Some [] => raise (HTTP 404 (py "Optimization not found"))
    | Some doc => ret (VDict doc)
    end.

(** [DELETE /api/optimizations/{optimization_id}] (lines 500-514). *)
Definition delete_optimization (optimization_id : str) : M pyval :=
  if negb (ObjectId_is_valid W optimization_id) then
    raise (HTTP 400 (py "Invalid optimization ID"))
  else
    let* deleted_count := delete_one (ObjectId W optimization_id) in
    if (deleted_count =? 0)%Z then
      raise (HTTP 404 (py "Optimization not found"))
    else
      ret (VDict [(py "message", VStr (py "Optimization deleted successfully"))]).

End Backend.

(** The keyword arguments [save_and_respond] gives the two constructors. *)
Definition record_fields
    (job_url job_posting_cleansed job_posting_raw resume_content : str)
    (optimized suggestions score : pyval) : list (str * pyval) :=
  [ (py "user_email", VStr (py "anonymous@example.com"));
    (py "job_url", VStr job_url);
    (py "job_posting_content", VStr job_posting_cleansed);
    (py "job_posting_raw", VStr job_posting_raw);
    (py "original_resume", VStr resume_content);
    (py "optimized_resume", optimized);
    (py "suggestions", suggestions);
    (py "match_score", score) ].

Definition response_fields (id job_posting_cleansed : str)
    (optimized suggestions score created_at : pyval) : list (str * pyval) :=
  [ (py "id", VStr id);
    (py "optimized_resume", optimized);
    (py "suggestions", suggestions);
    (py "match_score", score);
    (py "created_at", created_at);
    (py "job_posting_content", VStr job_posting_cleansed) ].

(** The document as the store keeps it: the identifier comes first. *)
Definition stored (id : oid) (doc : list (str * pyval)) : list (str * pyval) :=
  (py "_id", VObjectId id) :: doc.

(* ===================================================================== *)
(** * The connection to the store: [backend/database.py] *)
(* ===================================================================== *)

Module Database.

(** The module-level object [db = MongoDB()]: its two attributes, both
    [None] when the module is loaded.  A client is known by the URL it was
    made for, a database by its name. *)
Record MongoDB : Type := Db {
  client : option str;
  database : option str
}.

Definition fresh : MongoDB := Db None None.

Inductive error : Type :=
| ServerSelectionTimeoutError (msg : str)
| AttributeError (msg : str)
| OtherError (msg : str).

(** What the module does to the outside: the driver's calls and the lines
    it prints. *)
Inductive call : Type :=
| NewClient (url : str)
| ServerInfo (url : str)
| Close (url : str)
| Print (line : str).

(** The process environment and the driver. *)
Record dbenv : Type := DbEnv {
  (** [os.environ], after [load_dotenv()] *)
  environ : str -> option str;
  (** [AsyncIOMotorClient(url, serverSelectionTimeoutMS=5000)], when it
      raises *)
  new_client : str -> option error;
  (** [await client.server_info()], when it raises *)
  server_info : list call -> str -> option error;
  (** [client[name]], when it raises *)
  get_item : str -> option error
}.

Record dbstate : Type := DbState {
  db : MongoDB;
  log : list call
}.

(** [os.getenv(name, default)] *)
Definition getenv (E : dbenv) (name default : str) : str :=
  match environ E name with
  | Some value => value
  | None => default
  end.

Definition said (s : dbstate) (calls : list call) : dbstate :=
  DbState (db s) (log s ++ calls).

(** [connect_to_mongo] (lines 14-27).  An exception of the [try] block
    goes on to the caller; a [ServerSelectionTimeoutError] is announced
    first. *)
Definition connect_to_mongo (E : dbenv) (s : dbstate)
  : (error + unit) * dbstate :=
  let reraise (e : error) (s' : dbstate) :=
    match e with
    | ServerSelectionTimeoutError _ =>
        (inl e, said s' [Print (py "Unable to connect to MongoDB")])
    | _ => (inl e, s')
    end in
  let url := getenv E (py "MONGODB_URL") (py "mongodb://localhost:27017") in
  match new_client E url with
  | Some e => reraise e (said s [NewClient url])
  | None =>
      let s1 := DbState (Db (Some url) (database (db s)))
                        (log s ++ [NewClient url]) in
      match server_info E (log s1) url with
      | Some e => reraise e (said s1 [ServerInfo url])
      | None =>
          let s2 := said s1 [ServerInfo url] in
          let name := getenv E (py "MONGODB_DB_NAME") (py "resume_optimizer") in
          match get_item E name with
          | Some e => reraise e s2
          | None =>
              (inr tt,
               DbState (Db (Some url) (Some name))
                       (log s2 ++ [Print (py "Connected to MongoDB")]))
          end
      end
  end.

(** [close_mongo_connection] (lines 29-33) *)
Definition close_mongo_connection (s : dbstate) : dbstate :=
  match client (db s) with
  | Some url => said s [Close url; Print (py "Disconnected from MongoDB")]
  | None => s
  end.

(** [get_database] (lines 35-37): [None] is Python's [None]. *)
Definition get_database (s : dbstate) : option str := database (db s).

(** [db.database.<name>]: the collection, as the pair of the database's
    name and its own. *)
Definition collection (s : dbstate) (name : str) : error + str * str :=
  match database (db s) with
  | Some d => inr (d, name)
  | None =>
      inl (AttributeError
             (py "'NoneType' object has no attribute '" ++ name ++ py "'"))
  end.

(** [get_users_collection] and [get_optimizations_collection]
    (lines 40-44) *)
Definition get_users_collection (s : dbstate) : error + str * str :=
  collection s (py "users").

Definition get_optimizations_collection (s : dbstate) : error + str * str :=
  collection s (py "optimizations").

(** The state when the module has just been loaded. *)
Definition loaded : dbstate := DbState fresh [].

(** A server that does not answer, with nothing set in the environment. *)
Definition no_server : dbenv :=
  DbEnv (fun _ => None) (fun _ => None)
        (fun _ _ => Some (ServerSelectionTimeoutError
                            (py "localhost:27017: [Errno 111] Connection refused")))
        (fun _ => None).

(** A server that answers, with the database name set in the
    environment. *)
Definition local_server : dbenv :=
  DbEnv (fun name => if str_eqb name (py "MONGODB_DB_NAME")
                     then Some (py "resumes") else None)
        (fun _ => None) (fun _ _ => None) (fun _ => None).

End Database.

(* ===================================================================== *)
(** * The words of the specification *)
(* ===================================================================== *)

(** "The first balanced brace-delimited JSON object substring" (the
    specification, sections 4.3 and 9): from an opening brace, the text up
    to the closing brace that brings the nesting depth back to zero; the
    first opening brace that has one wins. *)
Fixpoint scan_balanced (depth : nat) (s : str) : option str :=
  match s with
  | [] => None
  | c :: t =>
      if c =? RBRACE then
        match depth with
        | O => Some [c]
        | S d => option_map (cons c) (scan_balanced d t)
        end
      else if c =? LBRACE then option_map (cons c) (scan_balanced (S depth) t)
      else option_map (cons c) (scan_balanced depth t)
  end.

Fixpoint first_balanced_object (s : str) : option str :=
  match s with
  | [] => None
  | c :: t =>
      if c =? LBRACE then
        match scan_balanced 0 t with
        | Some m => Some (c :: m)
        | None => first_balanced_object t
        end
      else first_balanced_object t
  end.

(** "Every run of whitespace collapsed to a single space, and trimmed"
    (section 4.4): the only whitespace left is single spaces, each between
    two characters that are not whitespace. *)
Fixpoint single_spaced (prev_is_word : bool) (s : str) : bool :=
  match s with
  | [] => prev_is_word
  | c :: t =>
      if isspace c then (c =? SP) && prev_is_word && single_spaced false t
      else single_spaced true t
  end.

Definition collapsed_and_trimmed (s : str) : bool :=
  match s with
  | [] => true
  | _ => single_spaced false s
  end.

(** A character of a word. *)
Definition nonws (c : char) : Prop := isspace c = false.

(** A character that ends no line. *)
Definition not_linebreak (c : char) : Prop := is_linebreak c = false.

(** The text [optimize_resume_with_llm] hands to [json.loads] for a reply. *)
Definition json_text (reply : str) : str :=
  match re_search_braces reply with
  | Some json_match => json_match
  | None => reply
  end.

(** What [optimize_resume_with_llm] returns once [json.loads] has answered. *)
Definition parsed_or_fallback (resume : str) (parsed : exn + pyval) : pyval :=
  match parsed with
  | inr v => v
  | inl e =>
      if is_JSONDecodeError e then fallback_json_error resume e
      else fallback_api_error resume e
  end.

(** "A well-formed id", as opposed to one of "wrong length/charset"
    (sections 6 and 8): the 24 hexadecimal digits the store's identifiers
    are written as. *)
Definition is_hex (c : char) : bool :=
  match Bson.hex_digit c with Some _ => true | None => false end.

Definition well_formed_id (s : str) : bool :=
  (len s =? 24) && forallb is_hex s.

(** How many times one extraction runs the rendered fetcher: never after a
    long static text, once after a failed static fetch, once after a short
    static text when the rendered fetch returns, and twice after a short
    static text when the rendered fetch raises, since that exception lands
    in the handler meant for the static fetch. *)
Definition expected_attempts (W : env) (url : str) (st : state) : nat :=
  match http_get_text W (trace st) url with
  | inl _ => 1
  | inr soup_text =>
      if 500 <? len (normalize_lines soup_text) then 0
      else
        match playwright_text W (trace st ++ [EvHttpGet url]) url with
        | inl _ => 2
        | inr _ => 1
        end
  end.

(* ===================================================================== *)
(** * A concrete world, for the examples *)
(* ===================================================================== *)

Module Demo.

(** The identifier of a text that [bson] accepts. *)
Definition of_hex (s : str) : oid :=
  match Bson.ObjectId s with
  | Some bytes => bytes
  | None => []
  end.

(** The [n] low bytes of [x], most significant first. *)
Fixpoint bytes_of (n : nat) (x : N) (acc : list N) : list N :=
  match n with
  | O => acc
  | S n' => bytes_of n' (x / 256) (x mod 256 :: acc)
  end.

(** The identifiers the driver hands out: twelve bytes, here counting the
    calls made so far. *)
Definition fresh_id (tr : list event) : oid :=
  bytes_of 12 (N.of_nat (length tr)) [].

(** A world in which the static fetch answers [static], the rendered fetch
    answers by [rendered] (a function of the calls made so far), the
    Bedrock client is created unless [client] says otherwise, the model
    replies [llm], and a PDF has the pages [pages]. *)
Definition world
    (static : exn + str) (rendered : list event -> exn + str)
    (client : option exn) (llm : exn + str)
    (pages : exn + list (exn + str)) : env :=
  {| http_get_text := fun _ _ => static;
     playwright_text := fun tr _ => rendered tr;
     boto3_client := fun _ => client;
     invoke_model_text := fun _ _ _ => llm;
     json_loads := JsonFragment.json_loads;
     pdf_pages := fun _ => pages;
     ObjectId_is_valid := Bson.is_valid;
     ObjectId := of_hex;
     new_ObjectId := fresh_id;
     str_of_ObjectId := Bson.hexlify;
     store_fault := fun _ => None;
     make_ResumeOptimization :=
       fun _ kw => inr (kw ++ [(py "created_at", VStr (py "2024-01-01T00:00:00"));
                               (py "updated_at", VStr (py "2024-01-01T00:00:00"))]);
     make_ResumeResponse := fun kw => inr (VDict kw) |}.

Definition connection_error : exn :=
  Exn OtherException (py "All connection attempts failed").

Definition timeout_error : exn :=
  Exn OtherException (py "Timeout 60000ms exceeded.").

Definition not_a_pdf : exn :=
  Exn OtherException (py "EOF marker not found").

Definition no_credentials : exn :=
  Exn OtherException (py "Unable to locate credentials").

(** A page whose text is a single line of [n] letters. *)
Definition page_text (n : N) : str := repeat 120 (N.to_nat n).

(** The empty world state: nothing called yet, nothing stored. *)
Definition st0 : state := State [] ∅.

Definition url : str := py "https://example.com/job-posting".

(** A page rendered by scripts: the static text is short, and the headless
    browser times out every time it is tried. *)
Definition script_page : env :=
  world (inr (py "Loading...")) (fun _ => inl timeout_error)
        None (inr (py "Senior Engineer")) (inl not_a_pdf).

(** A static page of 501 characters; the model answers the cleanser and
    the optimiser with [reply]. *)
Definition static_page (reply : exn + str) : env :=
  world (inr (page_text 501)) (fun _ => inl timeout_error)
        None reply (inl not_a_pdf).

(** The same page when the Bedrock client cannot be created. *)
Definition static_page_no_client : env :=
  world (inr (page_text 501)) (fun _ => inl timeout_error)
        (Some no_credentials) (inr []) (inl not_a_pdf).

(** A reply that is a JSON object followed by a remark with a brace. *)
Definition object_text : str :=
  pyq "{'optimized_resume': 'Python, AWS', 'suggestions': ['Add Docker'], 'match_score': 0.8}".

Definition chatty_reply : str :=
  object_text ++ py " Let me know if you want changes :-}".

(** A reply whose score is a percentage. *)
Definition percent_reply : str :=
  pyq "{'optimized_resume': 'Python, AWS', 'suggestions': [], 'match_score': 85}".

(** A reply whose optimised resume is empty. *)
Definition blank_reply : str :=
  pyq "{'optimized_resume': '', 'suggestions': [], 'match_score': 0.5}".

(** A PDF of two pages. *)
Definition two_pages : env :=
  world (inr (page_text 501)) (fun _ => inl timeout_error)
        None (inr []) (inr [inr (py "John  Doe"); inr (py "Engineer")]).

(** A site that cannot be reached, whose rendering times out as well. *)
Definition unreachable_page : env :=
  world (inl connection_error) (fun _ => inl timeout_error)
        None (inr object_text) (inl not_a_pdf).

(** A page that shows next to nothing, statically and rendered. *)
Definition blocked_page : env :=
  world (inr (py "Loading...")) (fun _ => inr (py " Please enable JavaScript "))
        None (inr object_text) (inl not_a_pdf).

(** A site whose static fetch fails and whose rendering gives 101
    characters. *)
Definition rendered_page : env :=
  world (inl connection_error) (fun _ => inr (page_text 101))
        None (inr object_text) (inl not_a_pdf).

(** A static page for which the model replies the empty object. *)
Definition empty_object_page : env := static_page (inr (py "{}")).

(** A static page for which the model replies a complete object. *)
Definition answered_page : env := static_page (inr object_text).

(** A store that holds one record. *)
Definition kept_id : str := py "65f0c0ffee0123456789abcd".

Definition kept_doc : list (str * pyval) :=
  [ (py "_id", VObjectId (of_hex kept_id));
    (py "job_url", VStr url) ].

Definition st1 : state := State [] {[ of_hex kept_id := kept_doc ]}.

(** An identifier written as eight pairs of digits with a blank after
    each: 24 characters. *)
Definition spaced_id : str := py "65 f0 c0 ff ee 01 23 45 ".

(** A text of the right length with a letter that is no digit, and one
    that is too short. *)
Definition wrong_charset_id : str := py "65f0c0ffee0123456789abcg".
Definition wrong_length_id : str := py "not-an-id".

(** An identifier under which nothing is stored. *)
Definition unknown_id : str := py "000000000000000000000000".

(** A store whose connection is lost while it answers: the operation is
    carried out, and the driver raises. *)
Definition connection_lost : exn :=
  Exn OtherException (py "connection closed").

Definition lost_reply : env :=
  {| http_get_text := fun _ _ => inl connection_error;
     playwright_text := fun _ _ => inl timeout_error;
     boto3_client := fun _ => None;
     invoke_model_text := fun _ _ _ => inr object_text;
     json_loads := JsonFragment.json_loads;
     pdf_pages := fun _ => inl not_a_pdf;
     ObjectId_is_valid := Bson.is_valid;
     ObjectId := of_hex;
     new_ObjectId := fresh_id;
     str_of_ObjectId := Bson.hexlify;
     store_fault := fun _ => Some (connection_lost, true);
     make_ResumeOptimization := fun _ kw => inr kw;
     make_ResumeResponse := fun kw => inr (VDict kw) |}.

Definition job : str := py "Python, AWS, Docker".
Definition resume : str := py "5 years Python, AWS".

End Demo.

(* ===================================================================== *)
(** * Examples: the definitions on concrete inputs *)
(* ===================================================================== *)

Example strip_ex : strip (py "  a b 	") = py "a b".
Proof. reflexivity. Qed.

Example splitlines_ex :
  splitlines [97; 13; 10; 98; 10; 10; 99; 10] = [[97]; [98]; []; [99]].
Proof. reflexivity. Qed.

Example normalize_lines_ex :
  normalize_lines (py "  Senior  Engineer " ++ [LF; LF] ++ py " Remote" ++ [LF])
  = py "Senior  Engineer Remote".
Proof. reflexivity. Qed.

Example sub_ws_ex : re_sub_ws (py "  a   b  ") = py " a b ".
Proof. reflexivity. Qed.

Example split_ex : split_ws (py "  a   bc  ") = [py "a"; py "bc"].
Proof. reflexivity. Qed.

Example str_of_N_ex : str_of_N 1203 = py "1203" /\ str_of_N 0 = py "0".
Proof. split; reflexivity. Qed.

Example utf8_decode_ex :
  Utf8.decode [Byte.x63; Byte.xc3; Byte.xa9; Byte.xe2; Byte.x82; Byte.xac]
  = Some [99; 233; 8364]
  /\ Utf8.decode [Byte.xc0; Byte.x80] = None
  /\ Utf8.decode [Byte.xed; Byte.xa0; Byte.x80] = None.
Proof. repeat split; reflexivity. Qed.

Example utf8_error_ex :
  Utf8.error_str [Byte.xff]
  = py "'utf-8' codec can't decode byte 0xff in position 0: invalid start byte"
  /\ Utf8.error_str [Byte.x63; Byte.xe2; Byte.x28; Byte.xa1]
     = py "'utf-8' codec can't decode byte 0xe2 in position 1: invalid continuation byte"
  /\ Utf8.error_str [Byte.xe2; Byte.x82; Byte.x28]
     = py "'utf-8' codec can't decode bytes in position 0-1: invalid continuation byte"
  /\ Utf8.error_str [Byte.x63; Byte.xc3]
     = py "'utf-8' codec can't decode byte 0xc3 in position 1: unexpected end of data"
  /\ Utf8.error_str [Byte.xf0; Byte.x9f; Byte.x98]
     = py "'utf-8' codec can't decode bytes in position 0-2: unexpected end of data"
  /\ Utf8.error_str [Byte.xc0; Byte.x80]
     = py "'utf-8' codec can't decode byte 0xc0 in position 0: invalid start byte"
  /\ Utf8.error_str [Byte.xed; Byte.xa0; Byte.x80]
     = py "'utf-8' codec can't decode byte 0xed in position 0: invalid continuation byte"
  /\ Utf8.error_str [Byte.xf4; Byte.x90; Byte.x80; Byte.x80]
     = py "'utf-8' codec can't decode byte 0xf4 in position 0: invalid continuation byte"
  /\ Utf8.error_str [Byte.xf0; Byte.x9f; Byte.x98; Byte.x28]
     = py "'utf-8' codec can't decode bytes in position 0-2: invalid continuation byte"
  /\ Utf8.error_str [Byte.x61; Byte.x62; Byte.xed; Byte.xa0]
     = py "'utf-8' codec can't decode byte 0xed in position 2: invalid continuation byte"
  /\ Utf8.error_str [Byte.xf0; Byte.x9f]
     = py "'utf-8' codec can't decode bytes in position 0-1: unexpected end of data"
  /\ Utf8.error_str [Byte.x63; Byte.xc3; Byte.xa9] = [].
Proof. repeat split; reflexivity. Qed.

Example bson_is_valid_ex :
  Bson.is_valid (py "65f0c0ffee0123456789abcd") = true
  /\ Bson.is_valid (py "65F0C0FFEE0123456789ABCD") = true
  /\ Bson.is_valid (py "65 f0 c0 ff ee 01 23 45 ") = true
  /\ Bson.is_valid (py "6 5f0c0ffee0123456789abc") = false
  /\ Bson.is_valid (py "65f0c0ffee0123456789abcg") = false
  /\ Bson.is_valid (py "65f0c0ffee0123456789abc") = false
  /\ Bson.is_valid [] = false
  /\ Bson.is_valid [54; 53; 9; 102; 48; 10; 99; 48; 11; 102; 102; 12; 101; 101;
                    13; 48; 49; 32; 50; 51; 32; 52; 53; 32] = true
  /\ Bson.is_valid (py "65" ++ [28] ++ py "f0 c0 ff ee 01 23 45 ") = false
  /\ Bson.is_valid (py "65" ++ [160] ++ py "f0 c0 ff ee 01 23 45 ") = false
  /\ Bson.ObjectId (py "65 f0 c0 ff ee 01 23 45 ")
     = Some [101; 240; 192; 255; 238; 1; 35; 69]
  /\ Bson.hexlify [101; 240; 192; 255; 238; 1; 35; 69] = py "65f0c0ffee012345".
Proof. repeat split; reflexivity. Qed.

Example json_loads_ex1 :
  JsonFragment.json_loads (pyq "{'a': [1, 0.5, 'x\ny'], 'b': {'c': null}} ")
  = inr (VDict [(py "a", VList [VInt 1; VFloat 0.5%float; VStr [120; 10; 121]]);
                (py "b", VDict [(py "c", VNone)])]).
Proof. vm_compute. reflexivity. Qed.

Example json_loads_ex2 :
  JsonFragment.json_loads (pyq "{'a': 1} ok }")
  = inl (Exn JSONDecodeError (py "Extra data: line 1 column 10 (char 9)")).
Proof. vm_compute. reflexivity. Qed.

Example json_loads_ex3 :
  JsonFragment.json_loads (py "Sorry, no JSON")
  = inl (Exn JSONDecodeError (py "Expecting value: line 1 column 1 (char 0)")).
Proof. vm_compute. reflexivity. Qed.

Example json_loads_ex4 :
  JsonFragment.json_loads (pyq "{'match_score': 0.85, 'k': -12, 'k': true}")
  = inr (VDict [(py "match_score", VFloat 0.85%float); (py "k", VBool true)]).
Proof. vm_compute. reflexivity. Qed.

Example re_search_braces_ex :
  re_search_braces (py "Sure! {a{b}c} and } more") = Some (py "{a{b}c} and }")
  /\ re_search_braces (py "} {") = None
  /\ first_balanced_object (py "Sure! {a{b}c} and } more") = Some (py "{a{b}c}").
Proof. repeat split; reflexivity. Qed.

(* ===================================================================== *)
(** * Whitespace: [strip], [re.sub(r'\s+', ' ', _)] and [split] *)
(* ===================================================================== *)

Lemma lstrip_app_keep u v : lstrip u <> [] -> lstrip (u ++ v) = lstrip u ++ v.
Proof.
  induction u as [|c u IH]; simpl; [congruence|].
  destruct (isspace c); [exact IH|reflexivity].
Qed.

Lemma lstrip_app_blank u v : lstrip u = [] -> lstrip (u ++ v) = lstrip v.
Proof.
  induction u as [|c u IH]; simpl; [reflexivity|].
  destruct (isspace c); [exact IH|discriminate].
Qed.

Lemma rstrip_nil_iff b : rstrip b = [] <-> lstrip (rev b) = [].
Proof.
  unfold rstrip. split; intros H.
  - apply (f_equal (@rev char)) in H. now rewrite rev_involutive in H.
  - now rewrite H.
Qed.

Lemma rstrip_app_keep a b : rstrip b <> [] -> rstrip (a ++ b) = a ++ rstrip b.
Proof.
  intros H. unfold rstrip. rewrite rev_app_distr, lstrip_app_keep.
  - now rewrite rev_app_distr, rev_involutive.
  - intros E. apply H. now apply rstrip_nil_iff.
Qed.

Lemma rstrip_app_blank a b : rstrip b = [] -> rstrip (a ++ b) = rstrip a.
Proof.
  intros H. unfold rstrip. rewrite rev_app_distr, lstrip_app_blank; [reflexivity|].
  now apply rstrip_nil_iff.
Qed.

Lemma rstrip_snoc_word x c : nonws c -> rstrip (x ++ [c]) = x ++ [c].
Proof.
  intros H. unfold rstrip. rewrite rev_app_distr. simpl. rewrite H.
  simpl. now rewrite rev_involutive.
Qed.

Lemma rstrip_snoc_blank x c : isspace c = true -> rstrip (x ++ [c]) = rstrip x.
Proof.
  intros H. unfold rstrip. rewrite rev_app_distr. simpl. now rewrite H.
Qed.

Lemma rstrip_rev_word cur :
  cur <> [] -> Forall nonws cur -> rstrip (rev cur) = rev cur.
Proof.
  destruct cur as [|c cur]; [congruence|]. intros _ H.
  simpl. apply rstrip_snoc_word. now inversion H.
Qed.

(** After a run of whitespace has been replaced, no whitespace leads. *)
Lemma lstrip_sub_ws_true s : lstrip (sub_ws true s) = sub_ws true s.
Proof.
  induction s as [|c s IH]; simpl; [reflexivity|].
  destruct (isspace c) eqn:E; [exact IH|]. simpl. now rewrite E.
Qed.

Lemma lstrip_sub_ws_false s : lstrip (sub_ws false s) = sub_ws true s.
Proof.
  destruct s as [|c s]; simpl; [reflexivity|].
  destruct (isspace c) eqn:E; simpl.
  - apply lstrip_sub_ws_true.
  - now rewrite E.
Qed.

(** The words [split] reports are not empty and hold no whitespace. *)
Lemma split_from_words s : forall cur,
  Forall nonws cur ->
  Forall (fun w => w <> [] /\ Forall nonws w) (split_from cur s).
Proof.
  induction s as [|c s IH]; intros cur Hcur; simpl.
  - destruct cur as [|a cur]; constructor; [|constructor].
    split; [|now apply Forall_rev].
    intros E. apply (f_equal (@length char)) in E.
    rewrite length_rev in E. discriminate.
  - destruct (isspace c) eqn:E.
    + destruct cur as [|a cur]; [now apply IH|].
      constructor; [|now apply IH].
      split; [|now apply Forall_rev].
      intros E'. apply (f_equal (@length char)) in E'.
      rewrite length_rev in E'. discriminate.
    + apply IH. now constructor.
Qed.

Lemma join_cons sep p ps :
  join sep (p :: ps) = p ++ match ps with [] => [] | _ => sep ++ join sep ps end.
Proof. destruct ps; simpl; [now rewrite app_nil_r|reflexivity]. Qed.

Lemma join_words_nonempty ws :
  ws <> [] -> Forall (fun w : str => w <> [] /\ Forall nonws w) ws ->
  join [SP] ws <> [].
Proof.
  destruct ws as [|w ws]; [congruence|]. intros _ H. rewrite join_cons.
  inversion H as [|? ? [Hw _] _]; subst. destruct w; [congruence|discriminate].
Qed.

(** The heart of the matter: trimming the text whose whitespace runs were
    replaced by single spaces gives the words of the text, one space
    apart.  [cur] is a word under construction in front of the text. *)
Lemma rstrip_sub_ws_words s :
  rstrip (sub_ws true s) = join [SP] (split_from [] s)
  /\ forall cur, cur <> [] -> Forall nonws cur ->
       rstrip (rev cur ++ sub_ws false s) = join [SP] (split_from cur s).
Proof.
  induction s as [|c s [IH1 IH2]].
  - split; [reflexivity|]. intros cur Hne Hcur. simpl.
    rewrite app_nil_r. destruct cur; [congruence|].
    now apply rstrip_rev_word.
  - simpl. destruct (isspace c) eqn:E.
    + split; [exact IH1|].
      intros cur Hne Hcur. destruct cur as [|a cur]; [congruence|].
      rewrite join_cons.
      destruct (split_from [] s) as [|w ws] eqn:S.
      * (* nothing but whitespace follows *)
        assert (B : rstrip (SP :: sub_ws true s) = []).
        { change (SP :: sub_ws true s) with ([SP] ++ sub_ws true s).
          rewrite rstrip_app_blank by exact IH1. reflexivity. }
        rewrite rstrip_app_blank by exact B.
        rewrite app_nil_r. now apply rstrip_rev_word.
      * (* another word follows *)
        assert (N : rstrip (sub_ws true s) <> []).
        { rewrite IH1. apply join_words_nonempty; [discriminate|].
          rewrite <- S. apply split_from_words. constructor. }
        change (rev (a :: cur) ++ SP :: sub_ws true s)
          with (rev (a :: cur) ++ [SP] ++ sub_ws true s).
        rewrite app_assoc, rstrip_app_keep by exact N.
        rewrite IH1, <- app_assoc. reflexivity.
    + split.
      * specialize (IH2 [c]). simpl in IH2. apply IH2; [discriminate|].
        constructor; [exact E|constructor].
      * intros cur Hne Hcur. specialize (IH2 (c :: cur)). simpl in IH2.
        rewrite <- app_assoc in IH2. simpl in IH2.
        apply IH2; [discriminate|]. constructor; [exact E|exact Hcur].
Qed.

(** [parse_text_resume] gives the words of its input, one space apart. *)
Lemma parse_text_resume_words content :
  parse_text_resume content = join [SP] (split_ws content).
Proof.
  unfold parse_text_resume, strip, re_sub_ws, split_ws.
  rewrite lstrip_sub_ws_false. apply rstrip_sub_ws_words.
Qed.

Lemma single_spaced_word b w rest :
  w <> [] -> Forall nonws w ->
  single_spaced b (w ++ rest) = single_spaced true rest.
Proof.
  revert b. induction w as [|c w IH]; intros b Hne Hw; [congruence|].
  inversion Hw as [|? ? Hc Hw']; subst. simpl. rewrite Hc.
  destruct w as [|d w]; [reflexivity|]. apply IH; [discriminate|exact Hw'].
Qed.

Lemma single_spaced_join ws :
  ws <> [] -> Forall (fun w : str => w <> [] /\ Forall nonws w) ws ->
  single_spaced false (join [SP] ws) = true.
Proof.
  induction ws as [|w ws IH]; [congruence|]. intros _ H.
  inversion H as [|? ? [Hne Hw] Hws]; subst. rewrite join_cons.
  rewrite single_spaced_word by assumption.
  destruct ws as [|w' ws]; [reflexivity|].
  change (single_spaced true (SP :: join [SP] (w' :: ws)) = true).
  cbn [single_spaced]. change (isspace SP) with true. cbv iota.
  rewrite IH; [reflexivity|discriminate|exact Hws].
Qed.

(** What [parse_text_resume] returns is collapsed and trimmed. *)
Lemma parse_text_resume_collapsed content :
  collapsed_and_trimmed (parse_text_resume content) = true.
Proof.
  rewrite parse_text_resume_words. unfold split_ws, collapsed_and_trimmed.
  pose proof (split_from_words content [] (List.Forall_nil _)) as H.
  destruct (split_from [] content) as [|w ws] eqn:S; [reflexivity|].
  destruct (join [SP] (w :: ws)) eqn:J; [reflexivity|]. rewrite <- J.
  apply single_spaced_join; [discriminate|exact H].
Qed.

(** The pages of a PDF, each followed by a line feed, and the trimmed
    result. *)
Lemma pdf_text_ok texts : forall text,
  pdf_text text (map inr texts)
  = inr (text ++ concat (map (fun t => t ++ [LF]) texts)).
Proof.
  induction texts as [|t texts IH]; intros text; simpl.
  - now rewrite app_nil_r.
  - rewrite IH. now rewrite <- !app_assoc.
Qed.

Lemma concat_lines_join texts :
  texts <> [] ->
  concat (map (fun t : str => t ++ [LF]) texts) = join [LF] texts ++ [LF].
Proof.
  induction texts as [|t texts IH]; [congruence|]. intros _.
  rewrite join_cons. simpl concat. destruct texts as [|t' texts].
  - simpl. now rewrite !app_nil_r.
  - rewrite IH by discriminate. now rewrite <- !app_assoc.
Qed.

Lemma strip_snoc_blank x c : isspace c = true -> strip (x ++ [c]) = strip x.
Proof.
  intros H. unfold strip. destruct (lstrip x) as [|a y] eqn:L.
  - rewrite lstrip_app_blank by exact L. simpl. now rewrite H.
  - rewrite lstrip_app_keep by (rewrite L; discriminate). rewrite L.
    now apply rstrip_snoc_blank.
Qed.

Lemma strip_pdf_pages texts :
  strip (concat (map (fun t : str => t ++ [LF]) texts)) = strip (join [LF] texts).
Proof.
  destruct texts as [|t texts]; [reflexivity|].
  rewrite concat_lines_join by discriminate. now apply strip_snoc_blank.
Qed.

(** [s.endswith(p)] says that [s] is some stem followed by [p]. *)
Lemma startswith_spec p : forall s,
  startswith s p = true <-> exists rest, s = p ++ rest.
Proof.
  induction p as [|a p IH]; intros s; simpl.
  - split; [intros _; now exists s|reflexivity].
  - destruct s as [|b s].
    + split; [discriminate|intros [rest [=]]].
    + rewrite andb_true_iff, N.eqb_eq, IH. split.
      * intros [-> [rest ->]]. now exists rest.
      * intros [rest [= -> ->]]. split; [reflexivity|now exists rest].
Qed.

Lemma endswith_spec s p :
  endswith s p = true <-> exists stem, s = stem ++ p.
Proof.
  unfold endswith. rewrite startswith_spec. split.
  - intros [rest E]. exists (rev rest).
    apply (f_equal (@rev char)) in E.
    now rewrite rev_involutive, rev_app_distr, rev_involutive in E.
  - intros [stem ->]. exists (rev stem). now rewrite rev_app_distr.
Qed.

(** The test on the file name looks at its last four characters, letters
    in either case. *)
Lemma pdf_name_spec filename :
  endswith (lower filename) (py ".pdf") = true
  <-> exists stem ext, filename = stem ++ ext /\ lower ext = py ".pdf".
Proof.
  rewrite endswith_spec. unfold lower. split.
  - intros [x E]. apply map_eq_app in E as (stem & ext & -> & _ & E).
    now exists stem, ext.
  - intros (stem & ext & -> & E). exists (map lower_char stem).
    now rewrite map_app, E.
Qed.

(* ===================================================================== *)
(** * Decoding errors and identifiers *)
(* ===================================================================== *)

Lemma option_map_none {A B} (f : A -> B) (o : option A) :
  option_map f o = None <-> o = None.
Proof. destruct o; simpl; split; congruence. Qed.

(** The strict decoder fails exactly when an error is found. *)
Lemma first_error_spec n :
  forall bs pos, (length bs <= n)%nat ->
    Utf8.decode_N bs = None <-> Utf8.first_error pos bs <> None.
Proof.
  induction n as [|n IH]; intros bs pos Hn.
  - destruct bs; [|simpl in Hn; lia]. simpl. split; congruence.
  - destruct bs as [|b0 r0]; [simpl; split; congruence|].
    simpl in Hn. cbn [Utf8.decode_N Utf8.first_error].
    repeat match goal with
           | |- context [N.ltb ?a ?b] => destruct (N.ltb_spec a b); try lia
           | |- context [N.leb ?a ?b] => destruct (N.leb_spec a b); try lia
           end;
      cbn [andb orb negb];
      repeat match goal with
             | |- context [match ?l with [] => _ | _ :: _ => _ end] =>
                 is_var l; destruct l
             | |- context [Utf8.cont ?b] => destruct (Utf8.cont b)
             | |- context [Utf8.second3 ?a ?b] => destruct (Utf8.second3 a b)
             | |- context [Utf8.second4 ?a ?b] => destruct (Utf8.second4 a b)
             end;
      cbn [andb orb negb];
      first [ rewrite option_map_none; apply IH; simpl in Hn |- *; lia
            | split; congruence ].
Qed.

(** What is not UTF-8 has an error to report, and its text begins as every
    [UnicodeDecodeError] of this codec does. *)
Lemma decode_error_found content :
  Utf8.decode content = None ->
  exists err,
    Utf8.first_error 0 (map Byte.to_N content) = Some err
    /\ Utf8.error_str content = Utf8.error_message err
    /\ startswith (Utf8.error_str content)
         (py "'utf-8' codec can't decode byte") = true.
Proof.
  unfold Utf8.decode, Utf8.error_str. intros H.
  apply (first_error_spec _ _ 0 (le_n _)) in H.
  destruct (Utf8.first_error 0 (map Byte.to_N content))
    as [[[[b0 start] stop] reason]|]; [|congruence].
  eexists. split; [reflexivity|]. split; [reflexivity|].
  unfold Utf8.error_message. destruct (stop =? start + 1); reflexivity.
Qed.

(** A hexadecimal digit is no whitespace. *)
Lemma hex_digit_not_space c :
  is_hex c = true -> Bson.ascii_space c = false.
Proof.
  unfold is_hex, Bson.hex_digit, Bson.ascii_space.
  repeat match goal with
         | |- context [N.leb ?a ?b] => destruct (N.leb_spec a b); try lia
         | |- context [N.eqb ?a ?b] => destruct (N.eqb_spec a b); try lia
         end; cbn; congruence.
Qed.

(** [bytes.fromhex] refuses a text that holds a character which is neither
    a digit nor whitespace. *)
Lemma fromhex_refuses n :
  forall s, (length s <= n)%nat ->
    Exists (fun c => is_hex c = false /\ Bson.ascii_space c = false) s ->
    Bson.fromhex s = None.
Proof.
  induction n as [|n IH]; intros s Hn Hbad.
  - destruct s; [inversion Hbad|simpl in Hn; lia].
  - destruct s as [|c t]; [inversion Hbad|]. simpl in Hn.
    cbn [Bson.fromhex].
    destruct (Bson.ascii_space c) eqn:Sc.
    + apply IH; [lia|]. inversion Hbad as [? ? [_ Hc]|]; subst; [congruence|assumption].
    + unfold is_hex in Hbad.
      destruct (Bson.hex_digit c) as [hi|] eqn:Hc; [|reflexivity].
      destruct t as [|c' t']; [reflexivity|].
      destruct (Bson.hex_digit c') as [lo|] eqn:Hc'; [|reflexivity].
      apply option_map_none. apply IH; [simpl in Hn; lia|].
      inversion Hbad as [? ? [Hh _]|? ? Hbad']; subst.
      * rewrite Hc in Hh. discriminate.
      * inversion Hbad' as [? ? [Hh _]|]; subst; [|assumption].
        rewrite Hc' in Hh. discriminate.
Qed.

(** It reads a text of digits, two to a byte. *)
Lemma fromhex_digits n :
  forall s, length s = (2 * n)%nat -> forallb is_hex s = true ->
    exists bytes, Bson.fromhex s = Some bytes /\ length bytes = n.
Proof.
  induction n as [|n IH]; intros s Hn Hs.
  - destruct s; [|discriminate]. now exists [].
  - destruct s as [|c [|c' t]]; try (simpl in Hn; lia).
    simpl in Hs. apply andb_prop in Hs as [Hc Hs]. apply andb_prop in Hs as [Hc' Hs].
    destruct (IH t) as (bytes & E & L); [simpl in Hn; lia|exact Hs|].
    cbn [Bson.fromhex]. rewrite (hex_digit_not_space c Hc).
    unfold is_hex in Hc, Hc'.
    destruct (Bson.hex_digit c) as [hi|]; [|discriminate].
    destruct (Bson.hex_digit c') as [lo|]; [|discriminate].
    rewrite E. eexists. split; [reflexivity|]. simpl. now rewrite L.
Qed.

(** What [ObjectId.is_valid] refuses, and what it accepts, by the shape of
    the text. *)
Lemma is_valid_refuses s :
  len s <> 24
  \/ Exists (fun c => is_hex c = false /\ Bson.ascii_space c = false) s ->
  Bson.is_valid s = false.
Proof.
  unfold Bson.is_valid, Bson.ObjectId. intros [Hl|Hbad].
  - destruct (N.eqb_spec (len s) 24); [contradiction|]. apply andb_false_r.
  - rewrite (fromhex_refuses _ s (le_n _) Hbad).
    destruct (len s =? 24); apply andb_false_r.
Qed.

Lemma is_valid_accepts s :
  well_formed_id s = true ->
  Bson.is_valid s = true
  /\ exists bytes, Bson.ObjectId s = Some bytes /\ length bytes = 12%nat.
Proof.
  unfold well_formed_id, Bson.is_valid, Bson.ObjectId.
  intros H. apply andb_prop in H as [Hl Hs]. rewrite Hl.
  apply N.eqb_eq in Hl. unfold len in Hl.
  destruct (fromhex_digits 12 s) as (bytes & E & L); [lia|exact Hs|].
  rewrite E. split; [|eauto].
  destruct s; [discriminate|reflexivity].
Qed.

(* ===================================================================== *)
(** * The LLM cleanser *)
(* ===================================================================== *)

Section BackendProofs.

Variable W : env.

Lemma after_nil st : after st [] = st.
Proof. destruct st; unfold after; simpl; now rewrite app_nil_r. Qed.

Lemma after_after st a b : after (after st a) b = after st (a ++ b).
Proof. unfold after; simpl; now rewrite app_assoc. Qed.

Lemma calls_after {A} (m : M A) st r evs :
  m st = (r, after st evs) -> calls m st = evs.
Proof.
  intros H. unfold calls. rewrite H. simpl. apply drop_app_length.
Qed.

Lemma slice_to_idemp n s : slice_to n (slice_to n s) = slice_to n s.
Proof. unfold slice_to. rewrite take_take. f_equal. lia. Qed.

Lemma cleanse_prompt_slice raw :
  cleanse_prompt (slice_to 8000 raw) = cleanse_prompt raw.
Proof. unfold cleanse_prompt. now rewrite slice_to_idemp. Qed.

(** The cleanser run symbolically: no client, or one call and its
    outcome. *)
Lemma cleanse_run raw st :
  cleanse_job_posting_with_llm W raw st =
  match boto3_client W (trace st) with
  | Some _ => (inr (slice_to 5000 raw), st)
  | None =>
      (inr match invoke_model_text W (trace st) MODEL_ID (cleanse_request raw) with
           | inr cleaned => cleaned
           | inl _ => slice_to 5000 raw
           end,
       after st [EvInvokeModel MODEL_ID (cleanse_request raw)])
  end.
Proof.
  unfold cleanse_job_posting_with_llm, make_client, bind, get_trace, ret.
  destruct (boto3_client W (trace st)) as [e|]; [reflexivity|].
  unfold try_except, invoke_model, bind, get_trace, emit, lift, ret, after,
    cleanse_request.
  simpl.
  destruct (invoke_model_text W (trace st) MODEL_ID _); reflexivity.
Qed.

(** The cleanser returns, leaves the store alone, and calls nothing but
    the model; the text it returns is the fallback, or the reply to its
    one request. *)
Lemma cleanse_returns raw st :
  exists text evs,
    cleanse_job_posting_with_llm W raw st = (inr text, after st evs)
    /\ filter is_playwright evs = []
    /\ (text = slice_to 5000 raw
        \/ (evs = [EvInvokeModel MODEL_ID (cleanse_request raw)]
            /\ boto3_client W (trace st) = None
            /\ invoke_model_text W (trace st) MODEL_ID (cleanse_request raw)
               = inr text)).
Proof.
  rewrite cleanse_run.
  destruct (boto3_client W (trace st)) eqn:C.
  - exists (slice_to 5000 raw), []. rewrite after_nil. auto.
  - eexists _, _. split; [reflexivity|]. split; [reflexivity|].
    destruct (invoke_model_text W (trace st) MODEL_ID (cleanse_request raw)) eqn:E;
      [left; reflexivity | right; auto].
Qed.

(* ===================================================================== *)
(** * The content extraction pipeline *)
(* ===================================================================== *)

Lemma playwright_run url st :
  scrape_with_playwright W url st =
  (match playwright_text W (trace st) url with
   | inl e => inl e
   | inr text => inr (normalize_lines text)
   end, after st [EvPlaywright url]).
Proof.
  unfold scrape_with_playwright, bind, get_trace, emit, lift, ret, after.
  simpl. destruct (playwright_text W (trace st) url); reflexivity.
Qed.

(** The rendered fetch followed by its length test and the cleanser, as
    both the [try] and the [except] branch of [scrape_job_posting] do it:
    it adds one run of the rendered fetcher and no other. *)
Lemma rendered_branch {A} url st (k_ok : str * str -> A) (k_short : A) :
  exists r evs,
    bind (scrape_with_playwright W url)
      (fun text =>
         if 100 <? len text
         then bind (cleanse_job_posting_with_llm W text)
                (fun cleansed_text => ret (k_ok (cleansed_text, text)))
         else ret k_short) st
    = (r, after st (EvPlaywright url :: evs))
    /\ filter is_playwright evs = []
    /\ match playwright_text W (trace st) url, r with
       | inl e, inl e' => e' = e /\ evs = []
       | inr text, inr a =>
           if 100 <? len (normalize_lines text)
           then exists cleansed,
                  a = k_ok (cleansed, normalize_lines text)
                  /\ (cleansed = slice_to 5000 (normalize_lines text)
                      \/ (evs = [EvInvokeModel MODEL_ID
                                   (cleanse_request (normalize_lines text))]
                          /\ boto3_client W (trace st ++ [EvPlaywright url])
                             = None
                          /\ invoke_model_text W
                               (trace st ++ [EvPlaywright url]) MODEL_ID
                               (cleanse_request (normalize_lines text))
                             = inr cleansed))
           else a = k_short /\ evs = []
       | _, _ => False
       end.
Proof.
  unfold bind at 1. rewrite playwright_run.
  destruct (playwright_text W (trace st) url) as [e|text].
  - exists (inl e), []. auto.
  - cbv beta iota. destruct (100 <? len (normalize_lines text)) eqn:L.
    + unfold bind, ret.
      destruct (cleanse_returns (normalize_lines text)
                  (after st [EvPlaywright url])) as (c & evs & -> & F & Hc).
      exists (inr (k_ok (c, normalize_lines text))), evs.
      rewrite after_after. simpl. eauto.
    + exists (inr k_short), []. unfold ret. auto.
Qed.

Lemma len_gt_nonempty n (s : str) : (n <? len s) = true -> s <> [].
Proof. intros H ->. unfold len in H. simpl in H. destruct n; discriminate. Qed.

Lemma slice_to_nonempty n (s : str) : 0 < n -> s <> [] -> slice_to n s <> [].
Proof.
  intros Hn Hs. destruct s as [|c s]; [congruence|].
  unfold slice_to. destruct (N.to_nat n) eqn:E; [lia|]. discriminate.
Qed.

Lemma playwright_attempts_app a b :
  playwright_attempts (a ++ b) = (playwright_attempts a + playwright_attempts b)%nat.
Proof. unfold playwright_attempts. now rewrite filter_app, length_app. Qed.

Lemma playwright_attempts_none evs :
  filter is_playwright evs = [] -> playwright_attempts evs = 0%nat.
Proof. unfold playwright_attempts. now intros ->. Qed.

(** A text that passed a length test and went through the cleanser. *)
Lemma cleansed_text_ok n text c (replied : Prop) :
  (n <? len text) = true ->
  (c = slice_to 5000 text \/ replied) ->
  text <> [] /\ (c <> [] \/ replied).
Proof.
  intros L Hc. assert (Ht : text <> []) by (eapply len_gt_nonempty; eauto).
  split; [exact Ht|]. destruct Hc as [->|Hc]; [left|right; exact Hc].
  apply slice_to_nonempty; [lia|exact Ht].
Qed.

Lemma attempts_one url evs :
  filter is_playwright evs = [] ->
  playwright_attempts (EvPlaywright url :: evs) = 1%nat.
Proof.
  intros F. change (EvPlaywright url :: evs) with ([EvPlaywright url] ++ evs).
  now rewrite playwright_attempts_app, (playwright_attempts_none evs F).
Qed.

Lemma attempts_two url evs :
  filter is_playwright evs = [] ->
  playwright_attempts (EvPlaywright url :: EvPlaywright url :: evs) = 2%nat.
Proof.
  intros F. change (EvPlaywright url :: EvPlaywright url :: evs)
    with ([EvPlaywright url; EvPlaywright url] ++ evs).
  now rewrite playwright_attempts_app, (playwright_attempts_none evs F).
Qed.

(** The cleansed text is the reply to the last call of the run: the calls
    before it are read off the goal. *)
Ltac last_call_replied :=
  match goal with
  | Hb : boto3_client _ _ = None, Hi : invoke_model_text _ _ _ _ = inr _ |- _ =>
      simpl in Hb, Hi; rewrite <- ?app_assoc in Hb, Hi; simpl in Hb, Hi;
      right;
      first [ eexists [_]; split; [reflexivity|]
            | eexists [_; _]; split; [reflexivity|]
            | eexists [_; _; _]; split; [reflexivity|] ];
      split; assumption
  end.

(** Closes a branch of [scrape_run] once the run is known: the witnesses
    are read off the goal, and the side conditions come from the length
    test [L] and the cleanser's outcome [Hc]. *)
Ltac scrape_branch :=
  unfold ret; do 3 eexists; split; [reflexivity|];
  first
    [ match goal with
      | L : (_ <? len ?text) = true, Hc : _ \/ _ |- _ =>
          destruct (cleansed_text_ok _ text _ _ L Hc) as [? [?|(-> & ? & ?)]]
      end;
      (split; [assumption|]);
      (split; [first [left; assumption | last_call_replied]|]);
      auto using attempts_one, attempts_two, playwright_attempts_none
    | repeat split;
      auto using attempts_one, attempts_two, playwright_attempts_none;
      first [discriminate | left; discriminate] ].

(** One extraction, run symbolically.  It always returns a pair, the static
    GET is its first call, the raw text is never empty, and the cleansed
    text is either not empty or the very text the model replied to the
    cleanser's request, the last call of the run. *)
Lemma scrape_run url st :
  exists cleansed raw evs,
    scrape_job_posting W url st
    = (inr (cleansed, raw), after st (EvHttpGet url :: evs))
    /\ raw <> []
    /\ (cleansed <> []
        \/ exists before,
             EvHttpGet url :: evs
             = before ++ [EvInvokeModel MODEL_ID (cleanse_request raw)]
             /\ boto3_client W (trace st ++ before) = None
             /\ invoke_model_text W (trace st ++ before) MODEL_ID
                  (cleanse_request raw)
                = inr cleansed)
    /\ playwright_attempts evs = expected_attempts W url st.
Proof.
  unfold scrape_job_posting, expected_attempts, try_except.
  unfold bind at 1, get_trace. unfold bind at 1, emit. unfold bind at 1, lift.
  fold (after st [EvHttpGet url]).
  change (trace st ++ [EvHttpGet url]) with (trace (after st [EvHttpGet url])).
  destruct (http_get_text W (trace st) url) as [e|soup].
  - (* the static fetch raised: the handler renders once *)
    unfold bind at 1.
    destruct (rendered_branch url (after st [EvHttpGet url])
                (fun p => Some p) None) as (r & evs & -> & F & Hr).
    rewrite after_after. simpl app.
    destruct (playwright_text W (trace (after st [EvHttpGet url])) url)
      as [e2|text], r as [e'|[[c raw]|]]; try contradiction.
    + scrape_branch.
    + destruct (100 <? len (normalize_lines text)) eqn:L.
      * destruct Hr as (c' & [= -> ->] & Hc). scrape_branch.
      * destruct Hr as [[=] _].
    + destruct (100 <? len (normalize_lines text)) eqn:L.
      * destruct Hr as (c' & [=] & _).
      * scrape_branch.
  - destruct (500 <? len (normalize_lines soup)) eqn:L.
    + (* a long static text: cleanse and return *)
      unfold bind.
      destruct (cleanse_returns (normalize_lines soup) (after st [EvHttpGet url]))
        as (c & evs & -> & F & Hc).
      rewrite after_after. simpl app. scrape_branch.
    + (* a short static text: render *)
      destruct (rendered_branch url (after st [EvHttpGet url])
                  (fun p => p) (extract_error_msg, extract_error_msg))
        as (r & evs & -> & F & Hr).
      rewrite after_after. simpl app.
      destruct (playwright_text W (trace (after st [EvHttpGet url])) url)
        as [e2|text], r as [e'|[c raw]]; try contradiction.
      * (* the rendered fetch raised inside the [try]: the handler renders
           a second time *)
        destruct Hr as [-> ->].
        unfold bind at 1.
        destruct (rendered_branch url (after st [EvHttpGet url; EvPlaywright url])
                    (fun p => Some p) None) as (r & evs2 & -> & F2 & Hr2).
        rewrite after_after. simpl app.
        destruct (playwright_text W
                    (trace (after st [EvHttpGet url; EvPlaywright url])) url)
          as [e3|text], r as [e'|[[c raw]|]]; try contradiction.
        -- scrape_branch.
        -- destruct (100 <? len (normalize_lines text)) eqn:L2.
           ++ destruct Hr2 as (c' & [= -> ->] & Hc). scrape_branch.
           ++ destruct Hr2 as [[=] _].
        -- destruct (100 <? len (normalize_lines text)) eqn:L2.
           ++ destruct Hr2 as (c' & [=] & _).
           ++ scrape_branch.
      * destruct (100 <? len (normalize_lines text)) eqn:L1.
        -- destruct Hr as (c' & [= -> ->] & Hc). scrape_branch.
        -- destruct Hr as [[= -> ->] ->]. scrape_branch.
Qed.

Lemma scrape_calls url st :
  exists evs,
    calls (scrape_job_posting W url) st = EvHttpGet url :: evs
    /\ playwright_attempts evs = expected_attempts W url st.
Proof.
  destruct (scrape_run url st) as (c & raw & evs & E & _ & _ & Hn).
  exists evs. split; [|exact Hn]. eapply calls_after; eauto.
Qed.

(** The rendered fetcher is run as often as [expected_attempts] says. *)
Lemma scrape_attempts url st :
  playwright_attempts (calls (scrape_job_posting W url) st)
  = expected_attempts W url st.
Proof.
  destruct (scrape_calls url st) as (evs & -> & Hn). exact Hn.
Qed.

(** [scrape_job_posting] never raises. *)
Lemma scrape_returns url st :
  exists cleansed raw, result (scrape_job_posting W url) st = inr (cleansed, raw).
Proof.
  destruct (scrape_run url st) as (c & raw & evs & E & _).
  exists c, raw. unfold result. now rewrite E.
Qed.

(** C7.  When the static fetch succeeds and its normalised text is longer
    than 500 characters, no call of the extraction is a run of the
    rendered fetcher. *)
Theorem static_success_never_renders url st soup_text :
  http_get_text W (trace st) url = inr soup_text ->
  500 < len (normalize_lines soup_text) ->
  filter is_playwright (calls (scrape_job_posting W url) st) = [].
Proof.
  intros Hs Hl.
  destruct (scrape_calls url st) as (evs & -> & Hn).
  unfold expected_attempts in Hn. rewrite Hs in Hn.
  apply N.ltb_lt in Hl. rewrite Hl in Hn.
  simpl. unfold playwright_attempts in Hn.
  now apply length_zero_iff_nil in Hn.
Qed.

(** C1.  Where the code departs from the claim: when the static fetch returns
    at most 500 characters and the rendered fetch that follows raises, the
    exception is caught by the handler written for the static fetch, which
    runs the rendered fetcher again: two runs, not one, before the failure
    is reported. *)
Theorem short_static_failed_render_renders_twice url st soup_text e :
  http_get_text W (trace st) url = inr soup_text ->
  len (normalize_lines soup_text) <= 500 ->
  playwright_text W (trace st ++ [EvHttpGet url]) url = inl e ->
  playwright_attempts (calls (scrape_job_posting W url) st) = 2%nat.
Proof.
  intros Hs Hl Hp. rewrite scrape_attempts. unfold expected_attempts.
  rewrite Hs, Hp.
  destruct (N.ltb_spec 500 (len (normalize_lines soup_text))); [lia|reflexivity].
Qed.

(** C10.  A request to [/optimize-json] without a resume text is answered
    400 only after the whole extraction has run: the state of the world is
    the one [scrape_job_posting] leaves, and the calls made start with the
    static GET. *)
Theorem optimize_json_scrapes_before_rejecting url resume_text st :
  resume_text = None \/ resume_text = Some [] ->
  optimize_resume_json W url resume_text st
  = (inl (HTTP 400 (py "resume_text must be provided in JSON request")),
     snd (scrape_job_posting W url st))
  /\ exists evs,
       calls (optimize_resume_json W url resume_text) st = EvHttpGet url :: evs
       /\ calls (optimize_resume_json W url resume_text) st
          = calls (scrape_job_posting W url) st.
Proof.
  intros Hr.
  destruct (scrape_run url st) as (c & raw & evs & E & _).
  assert (Hrun : optimize_resume_json W url resume_text st
                 = (inl (HTTP 400 (py "resume_text must be provided in JSON request")),
                    snd (scrape_job_posting W url st))).
  { unfold optimize_resume_json, bind. rewrite E. simpl.
    destruct Hr as [-> | ->]; reflexivity. }
  split; [exact Hrun|].
  exists evs. unfold calls at 1 2 3. rewrite Hrun, E. simpl.
  split; [apply drop_app_length | reflexivity].
Qed.

(* ===================================================================== *)
(** * The resume optimiser *)
(* ===================================================================== *)

(** The optimiser run symbolically. *)
Lemma optimize_run job resume st :
  optimize_resume_with_llm W job resume st =
  match boto3_client W (trace st) with
  | Some _ => (inr (fallback_no_credentials resume), st)
  | None =>
      (inr (parsed_or_fallback resume
              match invoke_model_text W (trace st) MODEL_ID
                      (optimize_request job resume) with
              | inr reply => json_loads W (json_text reply)
              | inl e => inl e
              end),
       after st [EvInvokeModel MODEL_ID (optimize_request job resume)])
  end.
Proof.
  unfold optimize_resume_with_llm, make_client, bind, get_trace, ret.
  destruct (boto3_client W (trace st)) as [e|]; [reflexivity|].
  unfold try_except, invoke_model, bind, get_trace, emit, lift, ret, after,
    optimize_request, parsed_or_fallback, json_text.
  simpl.
  destruct (invoke_model_text W (trace st) MODEL_ID _) as [e|reply].
  - destruct (is_JSONDecodeError e); reflexivity.
  - destruct (re_search_braces reply) as [m|].
    + destruct (json_loads W m) as [e|v]; [|reflexivity].
      destruct (is_JSONDecodeError e); reflexivity.
    + destruct (json_loads W reply) as [e|v]; [|reflexivity].
      destruct (is_JSONDecodeError e); reflexivity.
Qed.

Lemma parsed_or_fallback_error resume e :
  exists suggestions, parsed_or_fallback resume (inl e) = fallback resume suggestions.
Proof.
  unfold parsed_or_fallback. destruct (is_JSONDecodeError e); eexists; reflexivity.
Qed.

Lemma fallback_fields resume suggestions :
  getitem (fallback resume suggestions) (py "optimized_resume") = inr (VStr resume)
  /\ getitem (fallback resume suggestions) (py "match_score") = inr (VFloat 0.5%float)
  /\ match_score_ok (fallback resume suggestions) = true.
Proof. repeat split; reflexivity. Qed.

(** Every result of the optimiser is a fallback built on the resume, or
    the decoded reply. *)
Lemma optimize_score_free job resume st :
  exists v,
    result (optimize_resume_with_llm W job resume) st = inr v
    /\ (((exists suggestions, v = fallback resume suggestions)
         /\ getitem v (py "optimized_resume") = inr (VStr resume))
        \/ exists reply,
             boto3_client W (trace st) = None
             /\ invoke_model_text W (trace st) MODEL_ID
                  (optimize_request job resume) = inr reply
             /\ json_loads W (json_text reply) = inr v
             /\ calls (optimize_resume_with_llm W job resume) st
                = [EvInvokeModel MODEL_ID (optimize_request job resume)]).
Proof.
  unfold result, calls. rewrite optimize_run.
  destruct (boto3_client W (trace st)) as [e0|] eqn:C.
  - eexists. split; [reflexivity|]. left.
    split; [eexists; reflexivity|reflexivity].
  - eexists. split; [reflexivity|]. simpl.
    destruct (invoke_model_text W (trace st) MODEL_ID (optimize_request job resume))
      as [e|reply] eqn:I.
    + left. destruct (parsed_or_fallback_error resume e) as [s ->].
      split; [eauto|reflexivity].
    + destruct (json_loads W (json_text reply)) as [e|v] eqn:J.
      * left. destruct (parsed_or_fallback_error resume e) as [s ->].
        split; [eauto|reflexivity].
      * right. exists reply. rewrite drop_app_length. auto.
Qed.

(** C4.  [optimize_resume_with_llm] always returns a value, and whenever
    the client cannot be created, the call to the model raises, or the
    text taken from the reply does not parse, that value is a fallback
    dictionary whose [optimized_resume] is the resume it was given and
    whose [match_score] is 0.5. *)
Theorem optimize_never_raises job resume st :
  exists v,
    result (optimize_resume_with_llm W job resume) st = inr v
    /\ ((exists e, boto3_client W (trace st) = Some e)
        \/ (exists e, invoke_model_text W (trace st) MODEL_ID
                        (optimize_request job resume) = inl e)
        \/ (exists reply e,
              invoke_model_text W (trace st) MODEL_ID
                (optimize_request job resume) = inr reply
              /\ json_loads W (json_text reply) = inl e)
        -> (exists suggestions, v = fallback resume suggestions)
           /\ getitem v (py "optimized_resume") = inr (VStr resume)
           /\ getitem v (py "match_score") = inr (VFloat 0.5%float)).
Proof.
  unfold result. rewrite optimize_run.
  destruct (boto3_client W (trace st)) as [e0|] eqn:C.
  - eexists. split; [reflexivity|]. intros _.
    split; [eexists; reflexivity | split; reflexivity].
  - eexists. split; [reflexivity|]. simpl.
    intros [[e [=]] | [[e He] | (reply & e & Hr & He)]].
    + rewrite He. destruct (parsed_or_fallback_error resume e) as [s ->].
      split; [eauto | split; reflexivity].
    + rewrite Hr, He. destruct (parsed_or_fallback_error resume e) as [s ->].
      split; [eauto | split; reflexivity].
Qed.

(** C3, as the code has it.  Every result of [optimize_resume_with_llm] is
    either a fallback dictionary, whose [match_score] is present and
    equal to 0.5, or exactly the value [json.loads] made of the text
    taken from the model's reply, returned without any check of its
    fields. *)
Theorem optimize_score_checked_only_in_fallbacks job resume st :
  exists v,
    result (optimize_resume_with_llm W job resume) st = inr v
    /\ ((match_score_ok v = true
         /\ getitem v (py "match_score") = inr (VFloat 0.5%float))
        \/ (exists reply,
              boto3_client W (trace st) = None
              /\ invoke_model_text W (trace st) MODEL_ID
                   (optimize_request job resume) = inr reply
              /\ json_loads W (json_text reply) = inr v)).
Proof.
  unfold result. rewrite optimize_run.
  destruct (boto3_client W (trace st)) as [e0|] eqn:C.
  - eexists. split; [reflexivity|]. left. split; reflexivity.
  - eexists. split; [reflexivity|]. simpl.
    destruct (invoke_model_text W (trace st) MODEL_ID (optimize_request job resume))
      as [e|reply] eqn:I.
    + left. destruct (parsed_or_fallback_error resume e) as [s ->].
      split; reflexivity.
    + destruct (json_loads W (json_text reply)) as [e|v] eqn:J.
      * left. destruct (parsed_or_fallback_error resume e) as [s ->].
        split; reflexivity.
      * right. exists reply. auto.
Qed.

(** The search for a brace-delimited span, characterised by the shape of
    the text. *)
Lemma from_first_lbrace_app pre t :
  LBRACE ∉ pre -> from_first_lbrace (pre ++ LBRACE :: t) = Some t.
Proof.
  induction pre as [|c pre IH]; intros Hn; simpl.
  - reflexivity.
  - apply not_elem_of_cons in Hn as [Hc Hp].
    destruct (N.eqb_spec c LBRACE); [congruence|]. now apply IH.
Qed.

Lemma from_first_lbrace_some s t :
  from_first_lbrace s = Some t -> exists pre, s = pre ++ LBRACE :: t.
Proof.
  induction s as [|c s IH]; simpl; [discriminate|].
  destruct (N.eqb_spec c LBRACE) as [->|].
  - intros [= ->]. now exists [].
  - intros H. destruct (IH H) as [pre ->]. now exists (c :: pre).
Qed.

Lemma upto_last_rbrace_none post :
  RBRACE ∉ post -> upto_last_rbrace post = None.
Proof.
  induction post as [|c post IH]; intros Hn; simpl; [reflexivity|].
  apply not_elem_of_cons in Hn as [Hc Hp]. rewrite (IH Hp).
  destruct (N.eqb_spec c RBRACE); [congruence|reflexivity].
Qed.

Lemma upto_last_rbrace_app mid post :
  RBRACE ∉ post ->
  upto_last_rbrace (mid ++ RBRACE :: post) = Some (mid ++ [RBRACE]).
Proof.
  intros Hn. induction mid as [|c mid IH]; simpl.
  - now rewrite (upto_last_rbrace_none post Hn).
  - now rewrite IH.
Qed.

Lemma upto_last_rbrace_some s m :
  upto_last_rbrace s = Some m ->
  exists mid post, s = mid ++ RBRACE :: post /\ m = mid ++ [RBRACE].
Proof.
  revert m. induction s as [|c s IH]; simpl; intros m; [discriminate|].
  destruct (upto_last_rbrace s) as [m'|].
  - intros [= <-]. destruct (IH m' eq_refl) as (mid & post & -> & ->).
    now exists (c :: mid), post.
  - destruct (N.eqb_spec c RBRACE) as [->|]; [|discriminate].
    intros [= <-]. now exists [], s.
Qed.

Lemma re_search_braces_span pre mid post :
  LBRACE ∉ pre -> RBRACE ∉ post ->
  re_search_braces (pre ++ LBRACE :: mid ++ RBRACE :: post)
  = Some (LBRACE :: mid ++ [RBRACE]).
Proof.
  intros Hl Hr. unfold re_search_braces.
  now rewrite from_first_lbrace_app, upto_last_rbrace_app.
Qed.

Lemma re_search_braces_some s m :
  re_search_braces s = Some m ->
  exists pre mid post, s = pre ++ LBRACE :: mid ++ RBRACE :: post.
Proof.
  unfold re_search_braces.
  destruct (from_first_lbrace s) as [t|] eqn:F; [|discriminate].
  destruct (upto_last_rbrace t) as [m'|] eqn:U; [|discriminate].
  intros _. apply from_first_lbrace_some in F as [pre ->].
  apply upto_last_rbrace_some in U as (mid & post & -> & _).
  now exists pre, mid, post.
Qed.

(** C2, as the code has it.  When the model replies, the text handed to
    [json.loads] runs from the first opening brace of the reply to its
    last closing brace, whatever lies between them; when no closing brace
    follows an opening brace, it is the whole reply.  The value returned is
    what [json.loads] makes of that text, or the fallback when it raises. *)
Theorem optimize_parses_first_to_last_brace job resume st reply :
  boto3_client W (trace st) = None ->
  invoke_model_text W (trace st) MODEL_ID (optimize_request job resume)
  = inr reply ->
  (forall pre mid post,
      reply = pre ++ LBRACE :: mid ++ RBRACE :: post ->
      LBRACE ∉ pre -> RBRACE ∉ post ->
      result (optimize_resume_with_llm W job resume) st
      = inr (parsed_or_fallback resume
               (json_loads W (LBRACE :: mid ++ [RBRACE]))))
  /\ ((forall pre mid post, reply <> pre ++ LBRACE :: mid ++ RBRACE :: post) ->
      result (optimize_resume_with_llm W job resume) st
      = inr (parsed_or_fallback resume (json_loads W reply))).
Proof.
  intros C I. unfold result. rewrite optimize_run, C, I. simpl. split.
  - intros pre mid post -> Hl Hr. unfold json_text.
    now rewrite re_search_braces_span.
  - intros Hno. unfold json_text.
    destruct (re_search_braces reply) as [m|] eqn:S; [|reflexivity].
    apply re_search_braces_some in S as (pre & mid & post & E).
    now destruct (Hno pre mid post).
Qed.

(** C8.  The cleanser always returns a text.  The only call it makes is one
    request to the model, whose prompt is built from the first 8000
    characters of the input and from nothing else of it.  When the client
    cannot be created or the call raises, the text returned is the first
    5000 characters of the input. *)
Theorem cleanse_bounded_request_and_fallback raw st :
  (exists text, result (cleanse_job_posting_with_llm W raw) st = inr text)
  /\ (forall ev, ev ∈ calls (cleanse_job_posting_with_llm W raw) st ->
        ev = EvInvokeModel MODEL_ID (cleanse_request (slice_to 8000 raw)))
  /\ calls (cleanse_job_posting_with_llm W raw) st
     = calls (cleanse_job_posting_with_llm W (slice_to 8000 raw)) st
  /\ ((exists e, boto3_client W (trace st) = Some e)
      \/ (exists e, invoke_model_text W (trace st) MODEL_ID (cleanse_request raw)
                    = inl e)
      -> result (cleanse_job_posting_with_llm W raw) st
         = inr (slice_to 5000 raw)).
Proof.
  assert (Hreq : cleanse_request (slice_to 8000 raw) = cleanse_request raw).
  { unfold cleanse_request. now rewrite cleanse_prompt_slice. }
  unfold result, calls. rewrite !cleanse_run, Hreq.
  destruct (boto3_client W (trace st)) as [e0|].
  - simpl. rewrite drop_all. repeat split; eauto.
    intros ev Hev. inversion Hev.
  - simpl. rewrite drop_app_length. repeat split; eauto.
    + intros ev Hev. apply list_elem_of_singleton in Hev. exact Hev.
    + intros [[e [=]] | [e ->]]. reflexivity.
Qed.

(* ===================================================================== *)
(** * Lookup and deletion by identifier *)
(* ===================================================================== *)

Lemma store_call_run {A} (ev : event)
    (op : gmap oid (list (str * pyval)) -> A * gmap oid (list (str * pyval)))
    st :
  store_fault W (trace st) = None ->
  store_call W ev op st
  = (inr (fst (op (store st))), State (trace st ++ [ev]) (snd (op (store st)))).
Proof.
  intros Hf. unfold store_call, bind, get_trace, emit. simpl. rewrite Hf.
  simpl. destruct (op (store st)); reflexivity.
Qed.

(** C9, as the code has it.  The identifier is judged by
    [bson.ObjectId.is_valid].  For lookup and for deletion alike: an
    identifier it refuses is answered 400 with the world untouched, so that
    no query has reached the store, and it refuses every text that is not
    24 characters long and every text that holds a character which is
    neither a hexadecimal digit nor ASCII whitespace; an identifier it
    accepts, under which nothing is stored, is answered 404 once the store
    has answered the one query, and it accepts every text of 24 hexadecimal
    digits. *)
Theorem invalid_or_absent_id_rejected id st :
  (forall s, ObjectId_is_valid W s = Bson.is_valid s) ->
  (Bson.is_valid id = false ->
   get_optimization W id st
   = (inl (HTTP 400 (py "Invalid optimization ID")), st)
   /\ delete_optimization W id st
      = (inl (HTTP 400 (py "Invalid optimization ID")), st)
   /\ filter is_store_query (calls (get_optimization W id) st) = []
   /\ filter is_store_query (calls (delete_optimization W id) st) = [])
  /\ (len id <> 24
      \/ Exists (fun c => is_hex c = false /\ Bson.ascii_space c = false) id ->
      Bson.is_valid id = false)
  /\ (Bson.is_valid id = true ->
      store st !! ObjectId W id = None ->
      store_fault W (trace st) = None ->
      get_optimization W id st
      = (inl (HTTP 404 (py "Optimization not found")),
         after st [EvFindOne (ObjectId W id)])
      /\ delete_optimization W id st
         = (inl (HTTP 404 (py "Optimization not found")),
            after st [EvDeleteOne (ObjectId W id)]))
  /\ (well_formed_id id = true -> Bson.is_valid id = true).
Proof.
  intros Hbson. pose proof (Hbson id) as Hid. split; [|split; [|split]].
  - intros Hv. rewrite Hv in Hid.
    unfold get_optimization, delete_optimization, calls, raise.
    rewrite Hid. simpl. rewrite drop_all. auto.
  - apply is_valid_refuses.
  - intros Hv Hs Hf. rewrite Hv in Hid.
    unfold get_optimization, delete_optimization, find_one, delete_one, bind.
    rewrite Hid. simpl. rewrite !store_call_run by exact Hf.
    rewrite Hs. simpl. split; reflexivity.
  - intros Hw. apply is_valid_accepts, Hw.
Qed.

(** C5, as the code has it.  An extraction always returns a pair whose raw
    text is not empty, and whose cleansed text is not empty unless it is
    the text the model itself replied to the cleanser's request for that
    raw text, the last call of the extraction, which is returned as it
    came.  An optimisation always returns a value: a fallback, whose
    [optimized_resume] is the resume it was given, or else the value
    [json.loads] made of the text the model replied to this very
    request. *)
Theorem nonempty_except_what_the_model_replied url job resume st :
  (exists cleansed raw,
     result (scrape_job_posting W url) st = inr (cleansed, raw)
     /\ raw <> []
     /\ (cleansed <> []
         \/ exists before,
              calls (scrape_job_posting W url) st
              = before ++ [EvInvokeModel MODEL_ID (cleanse_request raw)]
              /\ boto3_client W (trace st ++ before) = None
              /\ invoke_model_text W (trace st ++ before) MODEL_ID
                   (cleanse_request raw)
                 = inr cleansed))
  /\ (exists v,
       result (optimize_resume_with_llm W job resume) st = inr v
       /\ (((exists suggestions, v = fallback resume suggestions)
            /\ getitem v (py "optimized_resume") = inr (VStr resume))
           \/ exists reply,
                boto3_client W (trace st) = None
                /\ invoke_model_text W (trace st) MODEL_ID
                     (optimize_request job resume) = inr reply
                /\ json_loads W (json_text reply) = inr v
                /\ calls (optimize_resume_with_llm W job resume) st
                   = [EvInvokeModel MODEL_ID (optimize_request job resume)])).
Proof.
  split.
  - destruct (scrape_run url st) as (c & raw & evs & E & Hraw & Hc & _).
    exists c, raw. unfold result, calls. rewrite E. simpl.
    rewrite drop_app_length. auto.
  - destruct (optimize_score_free job resume st) as (v & Hv & Hcases).
    exists v. split; [exact Hv|exact Hcases].
Qed.

(* ===================================================================== *)
(** * The resume parser *)
(* ===================================================================== *)

(** C6, as the code has it.  A file whose name ends in [.pdf], letters in
    either case, is read page by page, every page followed by a line feed,
    and the text is trimmed at both ends and otherwise left as it is.  Any
    other file is decoded as UTF-8, and its text, like a text given
    directly, comes out as its words one space apart: every run of
    whitespace collapsed to one space, none at either end. *)
Theorem resume_text_by_kind_of_upload filename content resume_text st :
  (endswith (lower filename) (py ".pdf") = true
   <-> exists stem ext, filename = stem ++ ext /\ lower ext = py ".pdf")
  /\ (forall texts,
        endswith (lower filename) (py ".pdf") = true ->
        pdf_pages W content = inr (map inr texts) ->
        parse_resume W (Some (filename, content)) resume_text st
        = (inr (strip (join [LF] texts)), st))
  /\ (forall text,
        endswith (lower filename) (py ".pdf") = false ->
        Utf8.decode content = Some text ->
        parse_resume W (Some (filename, content)) resume_text st
        = (inr (join [SP] (split_ws text)), st)
        /\ collapsed_and_trimmed (join [SP] (split_ws text)) = true)
  /\ (forall text,
        parse_resume W None (Some text) st
        = (inr (join [SP] (split_ws text)), st)
        /\ collapsed_and_trimmed (join [SP] (split_ws text)) = true).
Proof.
  split; [apply pdf_name_spec|]. split; [|split].
  - intros texts Hpdf Hpages. unfold parse_resume. rewrite Hpdf.
    unfold parse_pdf_resume, try_except, bind, lift, ret.
    rewrite Hpages, pdf_text_ok. simpl. now rewrite strip_pdf_pages.
  - intros text Hpdf Hdec. unfold parse_resume. rewrite Hpdf, Hdec.
    unfold ret. rewrite <- parse_text_resume_words.
    split; [reflexivity|apply parse_text_resume_collapsed].
  - intros text. unfold parse_resume, ret.
    rewrite <- parse_text_resume_words.
    split; [reflexivity|apply parse_text_resume_collapsed].
Qed.

(* ===================================================================== *)
(** * Further properties of the handlers *)
(* ===================================================================== *)

(** X1.  The rendered fetcher is run never after a static text longer than
    500 characters, once after a static fetch that raised, once after a
    shorter static text when the rendered fetch returns, and twice after a
    shorter static text when the rendered fetch raises. *)
Theorem rendered_fetcher_attempts url st :
  playwright_attempts (calls (scrape_job_posting W url) st)
  = match http_get_text W (trace st) url with
    | inl _ => 1%nat
    | inr soup_text =>
        if 500 <? len (normalize_lines soup_text) then 0%nat
        else
          match playwright_text W (trace st ++ [EvHttpGet url]) url with
          | inl _ => 2%nat
          | inr _ => 1%nat
          end
    end.
Proof. exact (scrape_attempts url st). Qed.

(** X2.  [scrape_job_posting] never raises: it returns a pair whose raw
    text is not empty, and the static GET is the first call it makes. *)
Theorem scrape_never_raises url st :
  exists cleansed raw evs,
    scrape_job_posting W url st
    = (inr (cleansed, raw), after st (EvHttpGet url :: evs))
    /\ raw <> [].
Proof.
  destruct (scrape_run url st) as (c & raw & evs & E & Hraw & _).
  now exists c, raw, evs.
Qed.

(** X3.  [POST /optimize] without a file and without a resume text is
    answered 400 before anything is fetched: the world is untouched. *)
Theorem optimize_rejects_before_scraping job_url st :
  optimize_resume W job_url None None st
  = (inl (HTTP 400 (py "Either resume_file or resume_text must be provided")), st)
  /\ optimize_resume W job_url None (Some []) st
     = (inl (HTTP 400 (py "Either resume_file or resume_text must be provided")), st).
Proof. split; reflexivity. Qed.

(** X4.  A file named [*.pdf] that the PDF reader refuses, or one of whose
    pages it cannot extract, is answered 400 with the reader's message. *)
Theorem unreadable_pdf_is_a_client_error filename content resume_text st e :
  endswith (lower filename) (py ".pdf") = true ->
  (pdf_pages W content = inl e
   \/ exists texts rest, pdf_pages W content = inr (map inr texts ++ inl e :: rest)) ->
  parse_resume W (Some (filename, content)) resume_text st
  = (inl (HTTP 400 (py "Error parsing PDF: " ++ exn_str e)), st).
Proof.
  intros Hpdf Hbad. unfold parse_resume. rewrite Hpdf.
  unfold parse_pdf_resume, try_except, bind, lift, raise.
  destruct Hbad as [-> | (texts & rest & ->)]; [reflexivity|].
  assert (Hp : forall acc, pdf_text acc (map inr texts ++ inl e :: rest) = inl e).
  { induction texts as [|t texts IH]; intros acc; simpl; [reflexivity|apply IH]. }
  now rewrite Hp.
Qed.

End BackendProofs.

(* ===================================================================== *)
(** * The theorems at concrete inputs *)
(* ===================================================================== *)

(** C1 at a page rendered by scripts whose rendering times out: two runs of
    the rendered fetcher, and the error of the rendered fetcher reported
    as the scraping error. *)
Lemma script_page_renders_twice :
  playwright_attempts (calls (scrape_job_posting Demo.script_page Demo.url) Demo.st0)
  = 2%nat.
Proof.
  apply (short_static_failed_render_renders_twice Demo.script_page Demo.url
           Demo.st0 (py "Loading...") Demo.timeout_error).
  - reflexivity.
  - vm_compute. discriminate.
  - reflexivity.
Defined.

Example script_page_run :
  scrape_job_posting Demo.script_page Demo.url Demo.st0
  = (inr (py "Unable to scrape job posting. Error: Timeout 60000ms exceeded.",
          py "Unable to scrape job posting. Error: Timeout 60000ms exceeded."),
     State [EvHttpGet Demo.url; EvPlaywright Demo.url; EvPlaywright Demo.url] ∅).
Proof. vm_compute. reflexivity. Qed.

(** C7 at a static page of 501 characters. *)
Lemma static_page_never_renders :
  filter is_playwright
    (calls (scrape_job_posting (Demo.static_page (inr (py "Engineer"))) Demo.url)
       Demo.st0) = [].
Proof.
  apply (static_success_never_renders (Demo.static_page (inr (py "Engineer")))
           Demo.url Demo.st0 (Demo.page_text 501)).
  - reflexivity.
  - vm_compute. reflexivity.
Defined.

(** C10 at a request without resume text. *)
Lemma json_request_without_resume :
  optimize_resume_json Demo.script_page Demo.url None Demo.st0
  = (inl (HTTP 400 (py "resume_text must be provided in JSON request")),
     snd (scrape_job_posting Demo.script_page Demo.url Demo.st0))
  /\ exists evs,
       calls (optimize_resume_json Demo.script_page Demo.url None) Demo.st0
       = EvHttpGet Demo.url :: evs
       /\ calls (optimize_resume_json Demo.script_page Demo.url None) Demo.st0
          = calls (scrape_job_posting Demo.script_page Demo.url) Demo.st0.
Proof.
  apply (optimize_json_scrapes_before_rejecting Demo.script_page Demo.url None
           Demo.st0).
  left. reflexivity.
Defined.

Example json_request_without_resume_calls :
  calls (optimize_resume_json Demo.script_page Demo.url (Some [])) Demo.st0
  = [EvHttpGet Demo.url; EvPlaywright Demo.url; EvPlaywright Demo.url].
Proof. vm_compute. reflexivity. Qed.

(** C9 at a text that is too short, at one with a letter that is no digit,
    and at 24 digits under which nothing is stored. *)
Lemma bad_and_unknown_identifiers :
  (get_optimization Demo.script_page Demo.wrong_length_id Demo.st0
   = (inl (HTTP 400 (py "Invalid optimization ID")), Demo.st0)
   /\ delete_optimization Demo.script_page Demo.wrong_charset_id Demo.st0
      = (inl (HTTP 400 (py "Invalid optimization ID")), Demo.st0))
  /\ (get_optimization Demo.script_page Demo.unknown_id Demo.st0
      = (inl (HTTP 404 (py "Optimization not found")),
         after Demo.st0 [EvFindOne [0; 0; 0; 0; 0; 0; 0; 0; 0; 0; 0; 0]])
      /\ delete_optimization Demo.script_page Demo.unknown_id Demo.st1
         = (inl (HTTP 404 (py "Optimization not found")),
            after Demo.st1 [EvDeleteOne [0; 0; 0; 0; 0; 0; 0; 0; 0; 0; 0; 0]])).
Proof.
  split; [split|split].
  - apply (invalid_or_absent_id_rejected Demo.script_page
             Demo.wrong_length_id Demo.st0 (fun s => eq_refl)).
    reflexivity.
  - apply (invalid_or_absent_id_rejected Demo.script_page
             Demo.wrong_charset_id Demo.st0 (fun s => eq_refl)).
    reflexivity.
  - apply (invalid_or_absent_id_rejected Demo.script_page
             Demo.unknown_id Demo.st0 (fun s => eq_refl)); reflexivity.
  - apply (invalid_or_absent_id_rejected Demo.script_page
             Demo.unknown_id Demo.st1 (fun s => eq_refl)); reflexivity.
Defined.

(** C9 as stated fails: a text of 24 characters that is eight pairs of
    digits with a blank after each has not the format of an identifier,
    and yet the validator accepts it; lookup and deletion send the store a
    query for the eight bytes it spells and answer 404, not 400. *)
Lemma spaced_identifier_reaches_the_store :
  len Demo.spaced_id = 24
  /\ well_formed_id Demo.spaced_id = false
  /\ get_optimization Demo.script_page Demo.spaced_id Demo.st0
     = (inl (HTTP 404 (py "Optimization not found")),
        after Demo.st0 [EvFindOne [101; 240; 192; 255; 238; 1; 35; 69]])
  /\ delete_optimization Demo.script_page Demo.spaced_id Demo.st0
     = (inl (HTTP 404 (py "Optimization not found")),
        after Demo.st0 [EvDeleteOne [101; 240; 192; 255; 238; 1; 35; 69]])
  /\ filter is_store_query
       (calls (get_optimization Demo.script_page Demo.spaced_id) Demo.st0)
     = [EvFindOne [101; 240; 192; 255; 238; 1; 35; 69]].
Proof. repeat split; vm_compute; reflexivity. Qed.

(** C4 without credentials and with an unreachable service. *)
Lemma optimize_falls_back :
  (exists v,
     result (optimize_resume_with_llm Demo.static_page_no_client Demo.job Demo.resume)
       Demo.st0 = inr v
     /\ getitem v (py "optimized_resume") = inr (VStr Demo.resume)
     /\ getitem v (py "match_score") = inr (VFloat 0.5%float))
  /\ (exists v,
       result (optimize_resume_with_llm
                 (Demo.static_page (inl Demo.connection_error)) Demo.job Demo.resume)
         Demo.st0 = inr v
       /\ getitem v (py "optimized_resume") = inr (VStr Demo.resume)
       /\ getitem v (py "match_score") = inr (VFloat 0.5%float)).
Proof.
  split.
  - destruct (optimize_never_raises Demo.static_page_no_client Demo.job
                Demo.resume Demo.st0) as (v & Hv & Hf).
    exists v. split; [exact Hv|]. apply Hf. left. eexists. reflexivity.
  - destruct (optimize_never_raises (Demo.static_page (inl Demo.connection_error))
                Demo.job Demo.resume Demo.st0) as (v & Hv & Hf).
    exists v. split; [exact Hv|]. apply Hf. right. left. eexists. reflexivity.
Defined.

(** C8 when the service cannot be reached. *)
Lemma cleanse_falls_back :
  result (cleanse_job_posting_with_llm
            (Demo.static_page (inl Demo.connection_error)) (Demo.page_text 6000))
    Demo.st0
  = inr (Demo.page_text 5000).
Proof.
  destruct (cleanse_bounded_request_and_fallback
              (Demo.static_page (inl Demo.connection_error)) (Demo.page_text 6000)
              Demo.st0) as (_ & _ & _ & Hf).
  rewrite Hf.
  - vm_compute. reflexivity.
  - right. eexists. reflexivity.
Defined.

(** C2 at a reply that is an object followed by a remark with a closing
    brace: the whole reply, from its first brace to its last, is parsed. *)
Lemma chatty_reply_parsed_whole :
  result (optimize_resume_with_llm (Demo.static_page (inr Demo.chatty_reply))
            Demo.job Demo.resume) Demo.st0
  = inr (parsed_or_fallback Demo.resume
           (JsonFragment.json_loads Demo.chatty_reply)).
Proof.
  apply (proj1 (optimize_parses_first_to_last_brace
                  (Demo.static_page (inr Demo.chatty_reply))
                  Demo.job Demo.resume Demo.st0 Demo.chatty_reply
                  eq_refl eq_refl)
           []
           (pyq "'optimized_resume': 'Python, AWS', 'suggestions': ['Add Docker'], 'match_score': 0.8} Let me know if you want changes :-")
           []).
  - reflexivity.
  - apply not_elem_of_nil.
  - apply not_elem_of_nil.
Defined.

(** C2 as stated fails: the first balanced object of the reply parses, but
    the program hands [json.loads] the reply up to its last brace and ends
    in the fallback. *)
Lemma chatty_reply_not_first_object :
  first_balanced_object Demo.chatty_reply = Some Demo.object_text
  /\ JsonFragment.json_loads Demo.object_text
     = inr (VDict [ (py "optimized_resume", VStr (py "Python, AWS"));
                    (py "suggestions", VList [VStr (py "Add Docker")]);
                    (py "match_score", VFloat 0.8%float) ])
  /\ json_text Demo.chatty_reply = Demo.chatty_reply
  /\ str_eqb (json_text Demo.chatty_reply) Demo.object_text = false
  /\ result (optimize_resume_with_llm (Demo.static_page (inr Demo.chatty_reply))
               Demo.job Demo.resume) Demo.st0
     = inr (fallback_json_error Demo.resume
              (Exn JSONDecodeError (py "Extra data: line 1 column 88 (char 87)"))).
Proof. repeat split; vm_compute; reflexivity. Qed.

(** C3 as stated fails: a reply whose score is a percentage is returned as
    it is. *)
Lemma percent_reply_score_out_of_range :
  result (optimize_resume_with_llm (Demo.static_page (inr Demo.percent_reply))
            Demo.job Demo.resume) Demo.st0
  = inr (VDict [ (py "optimized_resume", VStr (py "Python, AWS"));
                 (py "suggestions", VList []);
                 (py "match_score", VInt 85) ])
  /\ match_score_ok (VDict [ (py "optimized_resume", VStr (py "Python, AWS"));
                             (py "suggestions", VList []);
                             (py "match_score", VInt 85) ]) = false.
Proof. split; vm_compute; reflexivity. Qed.

(** C5 as stated fails: when the model answers the cleanser with an empty
    text, the cleansed text is empty; and when its answer to the optimiser
    holds an empty [optimized_resume], that is what is returned. *)
Lemma empty_reply_empty_texts :
  result (scrape_job_posting (Demo.static_page (inr [])) Demo.url) Demo.st0
  = inr ([], Demo.page_text 501)
  /\ result (optimize_resume_with_llm (Demo.static_page (inr Demo.blank_reply))
               Demo.job Demo.resume) Demo.st0
     = inr (VDict [ (py "optimized_resume", VStr []);
                    (py "suggestions", VList []);
                    (py "match_score", VFloat 0.5%float) ]).
Proof. split; vm_compute; reflexivity. Qed.

(** A resume text of blanks passes the test of the handler, is normalised
    to the empty text, and comes back as the optimised resume when the
    optimiser falls back. *)
Example blank_resume_text :
  parse_text_resume (py "   ") = []
  /\ exists response,
       result (optimize_resume_json (Demo.static_page (inr [])) Demo.url
                 (Some (py "   "))) Demo.st0 = inr response
       /\ getitem response (py "optimized_resume") = inr (VStr [])
       /\ getitem response (py "job_posting_content") = inr (VStr []).
Proof.
  split; [reflexivity|].
  eexists. split; [vm_compute; reflexivity|]. split; reflexivity.
Qed.

(** C6 as stated fails: the text of a PDF keeps the line feed between its
    pages and the runs of blanks inside them. *)
Lemma pdf_text_not_collapsed :
  parse_resume Demo.two_pages
    (Some (py "resume.PDF", Utf8.ascii_bytes "%PDF-1.4")) None Demo.st0
  = (inr (py "John  Doe" ++ [LF] ++ py "Engineer"), Demo.st0)
  /\ collapsed_and_trimmed (py "John  Doe" ++ [LF] ++ py "Engineer") = false
  /\ parse_text_resume (py "John  Doe" ++ [LF] ++ py "Engineer")
     = py "John Doe Engineer".
Proof. repeat split; vm_compute; reflexivity. Qed.

(** C6 at the same PDF and at a text file. *)
Lemma resume_kinds :
  parse_resume Demo.two_pages
    (Some (py "resume.PDF", Utf8.ascii_bytes "%PDF-1.4")) None Demo.st0
  = (inr (strip (join [LF] [py "John  Doe"; py "Engineer"])), Demo.st0)
  /\ parse_resume Demo.two_pages
       (Some (py "resume.txt", Utf8.ascii_bytes "  John   Doe ")) None Demo.st0
     = (inr (join [SP] (split_ws (py "  John   Doe "))), Demo.st0).
Proof.
  destruct (resume_text_by_kind_of_upload Demo.two_pages (py "resume.PDF")
              (Utf8.ascii_bytes "%PDF-1.4") None Demo.st0) as (_ & Hpdf & _).
  destruct (resume_text_by_kind_of_upload Demo.two_pages (py "resume.txt")
              (Utf8.ascii_bytes "  John   Doe ") None Demo.st0) as (_ & _ & Htxt & _).
  split.
  - apply (Hpdf [py "John  Doe"; py "Engineer"]); reflexivity.
  - apply (Htxt (py "  John   Doe ")); reflexivity.
Defined.

(** X4 at bytes that are no PDF. *)
Lemma not_a_pdf_rejected :
  parse_resume Demo.script_page
    (Some (py "resume.pdf", Utf8.ascii_bytes "hello")) None Demo.st0
  = (inl (HTTP 400 (py "Error parsing PDF: EOF marker not found")), Demo.st0).
Proof.
  apply (unreadable_pdf_is_a_client_error Demo.script_page (py "resume.pdf")
           (Utf8.ascii_bytes "hello") None Demo.st0 Demo.not_a_pdf).
  - reflexivity.
  - left. reflexivity.
Defined.

(* ===================================================================== *)
(** * More on the text functions *)
(* ===================================================================== *)

Lemma split_from_word w : forall cur rest,
  Forall nonws w -> split_from cur (w ++ rest) = split_from (rev w ++ cur) rest.
Proof.
  induction w as [|c w IH]; intros cur rest Hw; [reflexivity|].
  inversion Hw as [|? ? Hc Hw']; subst. simpl. rewrite Hc.
  rewrite IH by exact Hw'. now rewrite <- app_assoc.
Qed.

(** Splitting the words joined by single spaces gives the words back. *)
Lemma split_ws_join ws :
  Forall (fun w : str => w <> [] /\ Forall nonws w) ws ->
  split_ws (join [SP] ws) = ws.
Proof.
  unfold split_ws. induction ws as [|w ws IH]; intros H; [reflexivity|].
  inversion H as [|? ? [Hne Hw] Hws]; subst. rewrite join_cons.
  rewrite split_from_word by exact Hw. rewrite app_nil_r.
  assert (Hr : rev w <> []).
  { intros E. apply Hne. apply (f_equal (@rev char)) in E.
    now rewrite rev_involutive in E. }
  destruct ws as [|w' ws].
  - simpl. destruct (rev w) eqn:R; [congruence|]. rewrite <- R.
    now rewrite rev_involutive.
  - change ([SP] ++ join [SP] (w' :: ws)) with (SP :: join [SP] (w' :: ws)).
    cbn [split_from]. change (isspace SP) with true. cbv iota.
    destruct (rev w) eqn:R; [congruence|]. rewrite <- R.
    rewrite rev_involutive. f_equal. apply IH. exact Hws.
Qed.

(** X5.  [parse_text_resume] changes nothing but the whitespace: the words
    of its result are the words of its input, and applying it twice is the
    same as applying it once. *)
Theorem parse_text_resume_idempotent content :
  split_ws (parse_text_resume content) = split_ws content
  /\ parse_text_resume (parse_text_resume content) = parse_text_resume content.
Proof.
  assert (Hw : split_ws (parse_text_resume content) = split_ws content).
  { rewrite parse_text_resume_words. apply split_ws_join.
    apply split_from_words. constructor. }
  split; [exact Hw|].
  rewrite (parse_text_resume_words (parse_text_resume content)), Hw.
  symmetry. apply parse_text_resume_words.
Qed.

Lemma lstrip_Forall (P : char -> Prop) s : Forall P s -> Forall P (lstrip s).
Proof.
  induction 1 as [|c s Hc Hs IH]; simpl; [constructor|].
  destruct (isspace c); [exact IH|now constructor].
Qed.

Lemma strip_Forall (P : char -> Prop) s : Forall P s -> Forall P (strip s).
Proof.
  intros H. unfold strip, rstrip.
  apply Forall_rev, lstrip_Forall, Forall_rev, lstrip_Forall, H.
Qed.

Lemma lstrip_idemp s : lstrip (lstrip s) = lstrip s.
Proof.
  induction s as [|c s IH]; simpl; [reflexivity|].
  destruct (isspace c) eqn:E; [exact IH|]. simpl. now rewrite E.
Qed.

Lemma rstrip_idemp s : rstrip (rstrip s) = rstrip s.
Proof. unfold rstrip. now rewrite rev_involutive, lstrip_idemp. Qed.

Lemma rstrip_cons_word c s : nonws c -> rstrip (c :: s) = c :: rstrip s.
Proof.
  intros Hc. change (c :: s) with ([c] ++ s).
  destruct (rstrip s) as [|a r] eqn:R.
  - rewrite rstrip_app_blank by exact R.
    change [c] with ([] ++ [c]). now apply rstrip_snoc_word.
  - rewrite rstrip_app_keep by (rewrite R; discriminate). now rewrite R.
Qed.

(** A stripped text has no whitespace at either end. *)
Lemma lstrip_strip s : lstrip (strip s) = strip s.
Proof.
  unfold strip. destruct (lstrip s) as [|a u] eqn:L; [reflexivity|].
  assert (Ha : nonws a).
  { pose proof (lstrip_idemp s) as I. rewrite L in I. simpl in I.
    unfold nonws. destruct (isspace a); [|reflexivity].
    exfalso. apply (f_equal (@length char)) in I. simpl in I.
    assert (Hl : (length (lstrip u) <= length u)%nat).
    { clear. induction u as [|c u IH]; simpl; [lia|].
      destruct (isspace c); simpl; lia. }
    lia. }
  rewrite rstrip_cons_word by exact Ha. simpl. now rewrite Ha.
Qed.

Lemma strip_idemp s : strip (strip s) = strip s.
Proof.
  unfold strip at 1. rewrite lstrip_strip. unfold strip. apply rstrip_idemp.
Qed.

(** The lines [splitlines] reports hold no line boundary. *)
Lemma splitlines_from_lines n : forall s cur,
  (length s <= n)%nat -> Forall not_linebreak cur ->
  Forall (Forall not_linebreak) (splitlines_from cur s).
Proof.
  induction n as [|n IH]; intros s cur Hlen Hcur.
  - destruct s; [|simpl in Hlen; lia]. simpl.
    destruct cur; constructor; [now apply Forall_rev|constructor].
  - destruct s as [|c t]; simpl.
    + destruct cur; constructor; [now apply Forall_rev|constructor].
    + simpl in Hlen. destruct (is_linebreak c) eqn:E.
      * constructor; [now apply Forall_rev|].
        destruct t as [|c' t']; [constructor|]. simpl in Hlen.
        destruct ((c =? 13) && (c' =? 10)); apply IH;
          simpl; try lia; constructor.
      * apply IH; [lia|]. now constructor.
Qed.

(** A text without line boundaries is its own single line. *)
Lemma splitlines_from_single s : forall cur,
  Forall not_linebreak s ->
  splitlines_from cur s = match rev cur ++ s with [] => [] | l => [l] end.
Proof.
  induction s as [|c s IH]; intros cur Hs; simpl.
  - rewrite app_nil_r. destruct cur as [|a cur]; [reflexivity|].
    simpl. destruct (rev cur ++ [a]) eqn:R; [|reflexivity].
    now apply app_eq_nil in R as [_ [=]].
  - inversion Hs as [|? ? Hc Hs']; subst. rewrite Hc, IH by exact Hs'.
    simpl. now rewrite <- app_assoc.
Qed.

(** Lines that are stripped and not empty, joined by single spaces. *)
Lemma join_trimmed_lines lines :
  Forall (fun l : str => l <> [] /\ strip l = l /\ Forall not_linebreak l) lines ->
  Forall not_linebreak (join [SP] lines)
  /\ lstrip (join [SP] lines) = join [SP] lines
  /\ rstrip (join [SP] lines) = join [SP] lines
  /\ (lines <> [] -> join [SP] lines <> []).
Proof.
  induction 1 as [|l lines (Hne & Hs & Hl) _ (IH1 & IH2 & IH3 & IH4)].
  - repeat split; try constructor. congruence.
  - assert (Hls : lstrip l = l) by (rewrite <- Hs; apply lstrip_strip).
    assert (Hrs : rstrip l = l).
    { rewrite <- Hs. unfold strip. apply rstrip_idemp. }
    rewrite join_cons. destruct lines as [|l' lines].
    + rewrite app_nil_r. repeat split; auto.
    + assert (Hj : join [SP] (l' :: lines) <> []) by (apply IH4; discriminate).
      repeat split.
      * apply Forall_app. split; [exact Hl|].
        apply Forall_app. split; [|exact IH1]. constructor; [reflexivity|constructor].
      * rewrite lstrip_app_keep by (rewrite Hls; exact Hne). now rewrite Hls.
      * rewrite app_assoc, rstrip_app_keep by (rewrite IH3; exact Hj).
        now rewrite IH3.
      * intros _. destruct l; [congruence|discriminate].
Qed.

Lemma normalize_lines_lines text :
  Forall (fun l : str => l <> [] /\ strip l = l /\ Forall not_linebreak l)
    (filter nonempty (map strip (splitlines text))).
Proof.
  pose proof (splitlines_from_lines (length text) text [] (le_n _)
                (List.Forall_nil _)) as H.
  unfold splitlines. induction H as [|l ls Hl _ IH]; simpl; [constructor|].
  rewrite filter_cons. destruct (decide (nonempty (strip l))) as [N|N]; [|exact IH].
  constructor; [|exact IH]. repeat split.
  - intros E. rewrite E in N. exact N.
  - apply strip_idemp.
  - now apply strip_Forall.
Qed.

(** A trimmed text without line boundaries is left as it is, runs of
    blanks inside it included. *)
Lemma normalize_lines_fixed s :
  Forall not_linebreak s -> strip s = s -> normalize_lines s = s.
Proof.
  intros Hnb Hs. unfold normalize_lines, splitlines.
  rewrite splitlines_from_single by exact Hnb. simpl rev. simpl app.
  destruct s as [|c s'] eqn:R; [reflexivity|].
  simpl map. rewrite Hs, filter_cons. simpl. reflexivity.
Qed.

(** X6.  The text normaliser of both fetchers gives a single line: its
    result holds no line boundary and no whitespace at either end.  A text
    that is already such a line comes out unchanged, whatever whitespace it
    holds inside, so normalising twice is normalising once. *)
Theorem normalize_lines_single_line text :
  Forall not_linebreak (normalize_lines text)
  /\ strip (normalize_lines text) = normalize_lines text
  /\ (Forall not_linebreak text -> strip text = text ->
      normalize_lines text = text)
  /\ normalize_lines (normalize_lines text) = normalize_lines text.
Proof.
  destruct (join_trimmed_lines _ (normalize_lines_lines text))
    as (Hnb & Hl & Hr & _).
  fold (normalize_lines text) in Hnb, Hl, Hr.
  assert (Hs : strip (normalize_lines text) = normalize_lines text).
  { unfold strip. now rewrite Hl. }
  split; [exact Hnb|]. split; [exact Hs|].
  split; [apply normalize_lines_fixed|].
  now apply normalize_lines_fixed.
Qed.

(* ===================================================================== *)
(** * More on the pipeline *)
(* ===================================================================== *)

Section PipelineProofs.

Variable W : env.

Lemma optimize_request_slice job resume :
  optimize_request (slice_to 3000 job) (slice_to 3000 resume)
  = optimize_request job resume.
Proof.
  unfold optimize_request, optimize_prompt. now rewrite !slice_to_idemp.
Qed.

(** X7.  The optimiser makes at most one call, a request to the model built
    from the first 3000 characters of the job posting and of the resume
    and from nothing else of them, and it leaves the store alone: two runs
    whose inputs agree on those characters make the same calls. *)
Theorem optimize_request_bounded job resume st :
  (forall ev, ev ∈ calls (optimize_resume_with_llm W job resume) st ->
     ev = EvInvokeModel MODEL_ID
            (optimize_request (slice_to 3000 job) (slice_to 3000 resume)))
  /\ (length (calls (optimize_resume_with_llm W job resume) st) <= 1)%nat
  /\ store (snd (optimize_resume_with_llm W job resume st)) = store st
  /\ (forall job' resume',
        slice_to 3000 job' = slice_to 3000 job ->
        slice_to 3000 resume' = slice_to 3000 resume ->
        calls (optimize_resume_with_llm W job' resume') st
        = calls (optimize_resume_with_llm W job resume) st).
Proof.
  assert (Hcalls : forall j r,
            calls (optimize_resume_with_llm W j r) st
            = match boto3_client W (trace st) with
              | Some _ => []
              | None => [EvInvokeModel MODEL_ID (optimize_request j r)]
              end).
  { intros j r. unfold calls. rewrite optimize_run.
    destruct (boto3_client W (trace st)); simpl;
      [apply drop_all | apply drop_app_length]. }
  rewrite !Hcalls, optimize_request_slice, optimize_run.
  destruct (boto3_client W (trace st)); simpl.
  - repeat split; auto. intros ev Hev. inversion Hev.
  - repeat split; auto.
    + intros ev Hev. now apply list_elem_of_singleton in Hev.
    + intros j r Hj Hr. rewrite Hcalls.
      rewrite <- (optimize_request_slice j r), Hj, Hr.
      now rewrite optimize_request_slice.
Qed.

(** The extraction run up to the answer of the static fetch. *)
Lemma scrape_static_error url st e :
  http_get_text W (trace st) url = inl e ->
  scrape_job_posting W url st
  = bind (try_except
            (bind (scrape_with_playwright W url)
               (fun text =>
                  if 100 <? len text
                  then bind (cleanse_job_posting_with_llm W text)
                         (fun cleansed_text => ret (Some (cleansed_text, text)))
                  else ret None))
            (fun _ => ret None))
      (fun retry =>
         match retry with
         | Some r => ret r
         | None => ret (scrape_error_msg e, scrape_error_msg e)
         end)
      (after st [EvHttpGet url]).
Proof.
  intros Hs. unfold scrape_job_posting, try_except at 1.
  unfold bind at 1, get_trace. unfold bind at 1, emit. unfold bind at 1, lift.
  rewrite Hs. reflexivity.
Qed.

Lemma scrape_static_short url st soup :
  http_get_text W (trace st) url = inr soup ->
  (500 <? len (normalize_lines soup)) = false ->
  forall text,
    playwright_text W (trace st ++ [EvHttpGet url]) url = inr text ->
    scrape_job_posting W url st
    = (if 100 <? len (normalize_lines text)
       then bind (cleanse_job_posting_with_llm W (normalize_lines text))
              (fun cleansed_text => ret (cleansed_text, normalize_lines text))
       else ret (extract_error_msg, extract_error_msg))
        (after st [EvHttpGet url; EvPlaywright url]).
Proof.
  intros Hs L text Hp. unfold scrape_job_posting, try_except at 1.
  unfold bind at 1, get_trace. unfold bind at 1, emit. unfold bind at 1, lift.
  rewrite Hs, L. unfold bind at 1. rewrite playwright_run.
  simpl trace. rewrite Hp. unfold after. simpl. rewrite <- app_assoc. simpl.
  destruct (100 <? len (normalize_lines text)).
  - unfold bind.
    destruct (cleanse_returns W (normalize_lines text)
                (State (trace st ++ [EvHttpGet url; EvPlaywright url]) (store st)))
      as (c & evs & Hc & _).
    rewrite Hc. reflexivity.
  - reflexivity.
Qed.

Lemma scrape_fails_run url st e :
  http_get_text W (trace st) url = inl e ->
  match playwright_text W (trace st ++ [EvHttpGet url]) url with
  | inl _ => True
  | inr text => len (normalize_lines text) <= 100
  end ->
  scrape_job_posting W url st
  = (inr (scrape_error_msg e, scrape_error_msg e),
     after st [EvHttpGet url; EvPlaywright url]).
Proof.
  intros Hs Hp. rewrite (scrape_static_error url st e Hs).
  unfold bind at 1, try_except. unfold bind at 1. rewrite playwright_run.
  simpl trace.
  destruct (playwright_text W (trace st ++ [EvHttpGet url]) url) as [e2|text].
  - unfold ret, after. simpl. now rewrite <- app_assoc.
  - destruct (N.ltb_spec 100 (len (normalize_lines text))); [lia|].
    unfold ret, after. simpl. now rewrite <- app_assoc.
Qed.

(** X8.  When the static fetch raises and the rendered fetch raises too, or
    returns at most 100 characters, the extraction returns the same error
    string twice, with the message of the static fetch's exception; what
    the rendered fetch raised is dropped, and the model is not called. *)
Theorem static_error_is_the_one_reported url st e :
  http_get_text W (trace st) url = inl e ->
  match playwright_text W (trace st ++ [EvHttpGet url]) url with
  | inl _ => True
  | inr text => len (normalize_lines text) <= 100
  end ->
  scrape_job_posting W url st
  = (inr (scrape_error_msg e, scrape_error_msg e),
     after st [EvHttpGet url; EvPlaywright url]).
Proof. exact (scrape_fails_run url st e). Qed.

(** X9.  When the static text has at most 500 characters and the rendered
    text at most 100, the extraction returns the fixed message "Unable to
    extract job posting content..." as both texts, after one GET and one
    rendering and without calling the model. *)
Theorem short_texts_give_the_fixed_message url st soup text :
  http_get_text W (trace st) url = inr soup ->
  len (normalize_lines soup) <= 500 ->
  playwright_text W (trace st ++ [EvHttpGet url]) url = inr text ->
  len (normalize_lines text) <= 100 ->
  scrape_job_posting W url st
  = (inr (extract_error_msg, extract_error_msg),
     after st [EvHttpGet url; EvPlaywright url]).
Proof.
  intros Hs L5 Hp L1.
  rewrite (scrape_static_short url st soup Hs) with (text := text); auto.
  - destruct (N.ltb_spec 100 (len (normalize_lines text))); [lia|reflexivity].
  - destruct (N.ltb_spec 500 (len (normalize_lines soup))); [lia|reflexivity].
Qed.

(** X10.  When the static fetch raises, or returns at most 500 characters,
    and the rendered text has more than 100 characters, the rendered text
    is the raw text returned and the cleansed text is what the cleanser
    makes of it; the failure of the static fetch leaves no trace in the
    result. *)
Theorem rendered_text_replaces_static url st text :
  (exists e, http_get_text W (trace st) url = inl e)
  \/ (exists soup, http_get_text W (trace st) url = inr soup
                   /\ len (normalize_lines soup) <= 500) ->
  playwright_text W (trace st ++ [EvHttpGet url]) url = inr text ->
  100 < len (normalize_lines text) ->
  exists cleansed,
    result (scrape_job_posting W url) st = inr (cleansed, normalize_lines text)
    /\ result (cleanse_job_posting_with_llm W (normalize_lines text))
         (after st [EvHttpGet url; EvPlaywright url]) = inr cleansed.
Proof.
  intros Hs Hp L. apply N.ltb_lt in L.
  destruct (cleanse_returns W (normalize_lines text)
              (after st [EvHttpGet url; EvPlaywright url]))
    as (c & evs & Hc & _).
  exists c. split; [|unfold result; now rewrite Hc].
  unfold result. destruct Hs as [[e Hs] | (soup & Hs & L5)].
  - rewrite (scrape_static_error url st e Hs).
    unfold bind at 1, try_except. unfold bind at 1. rewrite playwright_run.
    simpl trace. rewrite Hp, L. rewrite after_after. simpl app.
    unfold bind at 1. rewrite Hc. reflexivity.
  - rewrite (scrape_static_short url st soup Hs) with (text := text); auto.
    + rewrite L. unfold bind. rewrite Hc. reflexivity.
    + destruct (N.ltb_spec 500 (len (normalize_lines soup))); [lia|reflexivity].
Qed.

(* ===================================================================== *)
(** * The handlers and the store *)
(* ===================================================================== *)

(** A store operation: the query is recorded, and then the store fails or
    acts. *)
Lemma store_call_cases {A} (ev : event)
    (op : gmap oid (list (str * pyval)) -> A * gmap oid (list (str * pyval)))
    st :
  store_call W ev op st
  = match store_fault W (trace st) with
    | Some (e, reached) =>
        (inl e,
         State (trace st ++ [ev])
           (if reached then snd (op (store st)) else store st))
    | None => (inr (fst (op (store st))),
               State (trace st ++ [ev]) (snd (op (store st))))
    end.
Proof.
  unfold store_call, bind, get_trace, emit, after. simpl.
  destruct (store_fault W (trace st)) as [[e []]|]; [reflexivity..|].
  simpl. destruct (op (store st)); reflexivity.
Qed.

(** The record is built, inserted under a new identifier and answered. *)
Lemma save_run job_url cleansed raw resume v o s m doc st :
  getitem v (py "optimized_resume") = inr o ->
  getitem v (py "suggestions") = inr s ->
  getitem v (py "match_score") = inr m ->
  make_ResumeOptimization W (trace st)
    (record_fields job_url cleansed raw resume o s m) = inr doc ->
  store_fault W (trace st) = None ->
  save_and_respond W job_url cleansed raw resume v st
  = (make_ResumeResponse W
       (response_fields (str_of_ObjectId W (new_ObjectId W (trace st))) cleansed
          o s m
          match dict_get (py "created_at") doc with
          | Some t => t
          | None => VNone
          end),
     State (trace st ++ [EvInsertOne doc])
       (<[new_ObjectId W (trace st) := stored (new_ObjectId W (trace st)) doc]>
          (store st))).
Proof.
  intros Ho Hs Hm Hd Hf.
  unfold save_and_respond, insert_one, bind, lift, get_trace.
  rewrite Ho, Hs, Hm. fold (record_fields job_url cleansed raw resume o s m).
  rewrite Hd, store_call_cases, Hf. reflexivity.
Qed.

(** When [save_and_respond] returns, that is how it ran. *)
Lemma save_returns job_url cleansed raw resume v st response st' :
  save_and_respond W job_url cleansed raw resume v st = (inr response, st') ->
  exists o s m doc,
    getitem v (py "optimized_resume") = inr o
    /\ getitem v (py "suggestions") = inr s
    /\ getitem v (py "match_score") = inr m
    /\ make_ResumeOptimization W (trace st)
         (record_fields job_url cleansed raw resume o s m) = inr doc
    /\ store_fault W (trace st) = None.
Proof.
  unfold save_and_respond, insert_one, bind, lift, get_trace.
  destruct (getitem v (py "optimized_resume")) as [?|o]; [discriminate|].
  destruct (getitem v (py "suggestions")) as [?|s]; [discriminate|].
  destruct (getitem v (py "match_score")) as [?|m]; [discriminate|].
  fold (record_fields job_url cleansed raw resume o s m).
  destruct (make_ResumeOptimization W (trace st) _) as [?|doc] eqn:D;
    [discriminate|].
  rewrite store_call_cases.
  destruct (store_fault W (trace st)) as [[? ?]|] eqn:F; [discriminate|].
  intros _. now exists o, s, m, doc.
Qed.

(** A value without one of the three fields stops [save_and_respond]
    before anything is stored. *)
Lemma save_missing_field job_url cleansed raw resume v st :
  (exists e, getitem v (py "optimized_resume") = inl e)
  \/ (exists e, getitem v (py "suggestions") = inl e)
  \/ (exists e, getitem v (py "match_score") = inl e) ->
  exists e,
    save_and_respond W job_url cleansed raw resume v st = (inl e, st)
    /\ (exn_type e = KeyError \/ exn_type e = TypeError).
Proof.
  assert (Hk : forall k e, getitem v k = inl e ->
                 exn_type e = KeyError \/ exn_type e = TypeError).
  { intros k e. unfold getitem. destruct v; try (intros [= <-]; auto).
    destruct (dict_get k d); intros [= <-]. auto. }
  intros H. unfold save_and_respond, bind, lift.
  destruct (getitem v (py "optimized_resume")) as [e1|o] eqn:E1;
    [exists e1; split; [reflexivity|eapply Hk; eauto]|].
  destruct (getitem v (py "suggestions")) as [e2|s] eqn:E2;
    [exists e2; split; [reflexivity|eapply Hk; eauto]|].
  destruct (getitem v (py "match_score")) as [e3|m] eqn:E3;
    [exists e3; split; [reflexivity|eapply Hk; eauto]|].
  destruct H as [[e [=]] | [[e [=]] | [e [=]]]].
Qed.

(** [POST /optimize-json] with a resume text, up to the saving: the
    extraction and the optimiser run, neither touches the store, and their
    results are handed to [save_and_respond]. *)
Lemma optimize_json_run url text st :
  text <> [] ->
  exists cleansed raw evs v st2,
    scrape_job_posting W url st
    = (inr (cleansed, raw), after st (EvHttpGet url :: evs))
    /\ optimize_resume_with_llm W cleansed (parse_text_resume text)
         (after st (EvHttpGet url :: evs)) = (inr v, st2)
    /\ optimize_resume_json W url (Some text) st
       = save_and_respond W url cleansed raw (parse_text_resume text) v st2
    /\ store st2 = store st.
Proof.
  intros Hne.
  destruct (scrape_run W url st) as (c & raw & evs & E & _).
  exists c, raw, evs.
  pose proof (optimize_run W c (parse_text_resume text)
                (after st (EvHttpGet url :: evs))) as O.
  destruct (boto3_client W (trace (after st (EvHttpGet url :: evs))));
    eexists _, _; (split; [exact E|]); (split; [exact O|]);
    (split; [|reflexivity]);
    unfold optimize_resume_json; unfold bind at 1; rewrite E;
    (destruct text; [congruence|]); unfold bind at 1; rewrite O; reflexivity.
Qed.

(** The handlers of one record, run when the store answers. *)
Lemma get_run s st :
  ObjectId_is_valid W s = true ->
  store_fault W (trace st) = None ->
  get_optimization W s st
  = (match store st !! ObjectId W s with
     | None | Some [] => inl (HTTP 404 (py "Optimization not found"))
     | Some doc => inr (VDict doc)
     end, after st [EvFindOne (ObjectId W s)]).
Proof.
  intros Hv Hf. unfold get_optimization, find_one, bind. rewrite Hv. simpl.
  rewrite store_call_cases, Hf. simpl.
  destruct (store st !! ObjectId W s) as [[|]|]; reflexivity.
Qed.

Lemma delete_run s st :
  ObjectId_is_valid W s = true ->
  store_fault W (trace st) = None ->
  delete_optimization W s st
  = match store st !! ObjectId W s with
    | Some _ =>
        (inr (VDict [(py "message", VStr (py "Optimization deleted successfully"))]),
         State (trace st ++ [EvDeleteOne (ObjectId W s)])
           (delete (ObjectId W s) (store st)))
    | None =>
        (inl (HTTP 404 (py "Optimization not found")),
         after st [EvDeleteOne (ObjectId W s)])
    end.
Proof.
  intros Hv Hf. unfold delete_optimization, delete_one, bind. rewrite Hv. simpl.
  rewrite store_call_cases, Hf. simpl.
  destruct (store st !! ObjectId W s); reflexivity.
Qed.

(** X11.  A record saved by [POST /optimize-json] can be read back: when
    the handler returns, the store holds one more document under the new
    identifier, the response was built with that identifier's string, and
    looking that string up (where the identifier library reads its own
    strings back) returns the document as inserted, with its [_id]. *)
Theorem saved_record_is_retrievable url text st response st' :
  optimize_resume_json W url (Some text) st = (inr response, st') ->
  exists id doc fields,
    store st' = <[id := stored id doc]> (store st)
    /\ make_ResumeResponse W ((py "id", VStr (str_of_ObjectId W id)) :: fields)
       = inr response
    /\ (ObjectId_is_valid W (str_of_ObjectId W id) = true ->
        ObjectId W (str_of_ObjectId W id) = id ->
        store_fault W (trace st') = None ->
        get_optimization W (str_of_ObjectId W id) st'
        = (inr (VDict (stored id doc)), after st' [EvFindOne id])).
Proof.
  intros H.
  assert (Hne : text <> []).
  { intros ->. destruct (scrape_run W url st) as (c & raw & evs & E & _).
    unfold optimize_resume_json, bind in H. rewrite E in H. discriminate. }
  destruct (optimize_json_run url text st Hne)
    as (c & raw & evs & v & st2 & _ & _ & Hrun & Hstore).
  pose proof (eq_trans (eq_sym Hrun) H) as H2.
  destruct (save_returns _ _ _ _ _ _ _ _ H2) as (o & s & m & doc & Ho & Hs & Hm & Hd & Hf).
  pose proof (eq_trans (eq_sym (save_run _ _ _ _ _ _ _ _ _ _ Ho Hs Hm Hd Hf)) H2) as H3.
  injection H3 as Hresp Hst'. subst st'.
  exists (new_ObjectId W (trace st2)), doc. eexists.
  split; [simpl; now rewrite Hstore|]. split; [exact Hresp|].
  intros Hv Hid Hfault.
  rewrite (get_run _ _ Hv Hfault), Hid. simpl store.
  rewrite lookup_insert_eq. reflexivity.
Qed.

(** X12.  Deleting a stored record answers with the message, removes that
    record and no other; afterwards looking it up and deleting it again
    both answer 404. *)
Theorem delete_removes_that_record_only s st doc :
  ObjectId_is_valid W s = true ->
  store st !! ObjectId W s = Some doc ->
  store_fault W (trace st) = None ->
  exists st',
    delete_optimization W s st
    = (inr (VDict [(py "message", VStr (py "Optimization deleted successfully"))]),
       st')
    /\ store st' !! ObjectId W s = None
    /\ (forall id, id <> ObjectId W s -> store st' !! id = store st !! id)
    /\ (store_fault W (trace st') = None ->
        result (get_optimization W s) st'
        = inl (HTTP 404 (py "Optimization not found"))
        /\ result (delete_optimization W s) st'
           = inl (HTTP 404 (py "Optimization not found"))).
Proof.
  intros Hv Hs Hf. eexists. rewrite (delete_run s st Hv Hf), Hs.
  split; [reflexivity|]. simpl store.
  split; [apply lookup_delete_eq|].
  split; [intros id Hid; now apply lookup_delete_ne|].
  intros Hf'. unfold result.
  rewrite (get_run s _ Hv Hf'), (delete_run s _ Hv Hf'). simpl store.
  rewrite lookup_delete_eq. split; reflexivity.
Qed.

(** X13.  Looking a record up never changes the store.  A deletion that
    is refused, or that asks for an identifier under which nothing is
    stored, leaves the store as it was; and when the store answers, a
    deletion that does not report success leaves the store as it was.
    (When the store fails, the record may be gone all the same.) *)
Theorem only_a_successful_delete_changes_the_store s st :
  store (snd (get_optimization W s st)) = store st
  /\ (ObjectId_is_valid W s = false \/ store st !! ObjectId W s = None ->
      store (snd (delete_optimization W s st)) = store st)
  /\ (store_fault W (trace st) = None ->
      forall e, result (delete_optimization W s) st = inl e ->
        store (snd (delete_optimization W s st)) = store st).
Proof.
  split; [|split].
  - unfold get_optimization, find_one, bind.
    destruct (ObjectId_is_valid W s); simpl; [|reflexivity].
    rewrite store_call_cases.
    destruct (store_fault W (trace st)) as [[e []]|]; [reflexivity..|]. simpl.
    destruct (store st !! ObjectId W s) as [[|]|]; reflexivity.
  - intros Hno. unfold delete_optimization, delete_one, bind.
    destruct (ObjectId_is_valid W s); simpl; [|reflexivity].
    destruct Hno as [[=]|Hno].
    rewrite store_call_cases, Hno.
    destruct (store_fault W (trace st)) as [[e []]|]; reflexivity.
  - intros Hf e. unfold result, delete_optimization, delete_one, bind.
    destruct (ObjectId_is_valid W s); simpl; [|reflexivity].
    rewrite store_call_cases, Hf. simpl.
    destruct (store st !! ObjectId W s); simpl; [discriminate|reflexivity].
Qed.

(** X14.  When the model's reply decodes to a value that lacks one of the
    fields [optimized_resume], [suggestions], [match_score] (or is no
    object at all), [POST /optimize-json] raises a [KeyError] or a
    [TypeError] instead of answering, and stores nothing. *)
Theorem reply_without_field_is_not_stored url text st reply v :
  text <> [] ->
  (forall tr, boto3_client W tr = None) ->
  (forall tr job,
     invoke_model_text W tr MODEL_ID
       (optimize_request job (parse_text_resume text)) = inr reply) ->
  json_loads W (json_text reply) = inr v ->
  (exists e, getitem v (py "optimized_resume") = inl e)
  \/ (exists e, getitem v (py "suggestions") = inl e)
  \/ (exists e, getitem v (py "match_score") = inl e) ->
  exists e,
    result (optimize_resume_json W url (Some text)) st = inl e
    /\ (exn_type e = KeyError \/ exn_type e = TypeError)
    /\ store (snd (optimize_resume_json W url (Some text) st)) = store st.
Proof.
  intros Hne Hc Hi Hj Hmiss.
  destruct (optimize_json_run url text st Hne)
    as (c & raw & evs & v' & st2 & _ & Hopt & Hrun & Hstore).
  rewrite optimize_run, Hc, Hi, Hj in Hopt. simpl in Hopt.
  injection Hopt as <- <-.
  destruct (save_missing_field url c raw (parse_text_resume text) v
              (after (after st (EvHttpGet url :: evs))
                 [EvInvokeModel MODEL_ID (optimize_request c (parse_text_resume text))])
              Hmiss) as (e & Hsave & Hk).
  exists e. unfold result. rewrite Hrun, Hsave. auto.
Qed.

(** X15.  [POST /optimize] finds out that an upload is unreadable only
    after the job posting has been fetched: for a file named [*.pdf] the
    reader refuses, the 400 is raised in the state the extraction leaves;
    for another file that is not UTF-8, so is the [UnicodeDecodeError],
    whose text names the first sequence that does not decode. *)
Theorem upload_rejected_after_scraping job_url filename content resume_text st :
  (forall e,
     endswith (lower filename) (py ".pdf") = true ->
     pdf_pages W content = inl e ->
     optimize_resume W job_url (Some (filename, content)) resume_text st
     = (inl (HTTP 400 (py "Error parsing PDF: " ++ exn_str e)),
        snd (scrape_job_posting W job_url st)))
  /\ (endswith (lower filename) (py ".pdf") = false ->
      Utf8.decode content = None ->
      optimize_resume W job_url (Some (filename, content)) resume_text st
      = (inl (Exn UnicodeDecodeError (Utf8.error_str content)),
         snd (scrape_job_posting W job_url st))
      /\ startswith (Utf8.error_str content)
           (py "'utf-8' codec can't decode byte") = true).
Proof.
  destruct (scrape_run W job_url st) as (c & raw & evs & E & _).
  split.
  - intros e Hpdf Hpages.
    assert (Hp : parse_resume W (Some (filename, content)) resume_text
                   (after st (EvHttpGet job_url :: evs))
                 = (inl (HTTP 400 (py "Error parsing PDF: " ++ exn_str e)),
                    after st (EvHttpGet job_url :: evs))).
    { unfold parse_resume. rewrite Hpdf.
      unfold parse_pdf_resume, try_except, bind, lift, raise.
      now rewrite Hpages. }
    unfold optimize_resume. unfold bind at 1. rewrite E.
    unfold bind at 1. rewrite Hp. reflexivity.
  - intros Hpdf Hdec.
    destruct (decode_error_found content Hdec) as (err & _ & _ & Hstr).
    split; [|exact Hstr].
    unfold optimize_resume. unfold bind at 1. rewrite E.
    unfold bind at 1, parse_resume. rewrite Hpdf, Hdec. reflexivity.
Qed.

(** X19.  When a file is uploaded to [POST /optimize], the resume text of
    the form is never looked at: the request runs as if no text had been
    sent. *)
Theorem uploaded_file_hides_resume_text job_url upload resume_text st :
  optimize_resume W job_url (Some upload) resume_text st
  = optimize_resume W job_url (Some upload) None st.
Proof.
  unfold optimize_resume, parse_resume. destruct upload as [filename content].
  destruct resume_text as [[|c text]|]; reflexivity.
Qed.

(** [save_and_respond] only adds to the trace. *)
Lemma save_trace job_url cleansed raw resume v st :
  exists evs,
    trace (snd (save_and_respond W job_url cleansed raw resume v st))
    = trace st ++ evs.
Proof.
  unfold save_and_respond, insert_one, bind, lift, get_trace.
  destruct (getitem v (py "optimized_resume")); [exists []; simpl; now rewrite app_nil_r|].
  destruct (getitem v (py "suggestions")); [exists []; simpl; now rewrite app_nil_r|].
  destruct (getitem v (py "match_score")); [exists []; simpl; now rewrite app_nil_r|].
  destruct (make_ResumeOptimization W (trace st) _) as [?|doc];
    [exists []; simpl; now rewrite app_nil_r|].
  rewrite store_call_cases.
  destruct (store_fault W (trace st)) as [[? ?]|]; now exists [EvInsertOne doc].
Qed.

(** X16.  The handler does not notice a failed extraction: after a failed
    static fetch and a failed rendering, [POST /optimize-json] goes on to
    ask the model for an optimisation, with the error string in the place
    of the job posting. *)
Theorem failed_extraction_is_optimized_all_the_same url text st e :
  text <> [] ->
  http_get_text W (trace st) url = inl e ->
  match playwright_text W (trace st ++ [EvHttpGet url]) url with
  | inl _ => True
  | inr rendered => len (normalize_lines rendered) <= 100
  end ->
  boto3_client W (trace st ++ [EvHttpGet url; EvPlaywright url]) = None ->
  exists rest,
    calls (optimize_resume_json W url (Some text)) st
    = EvHttpGet url :: EvPlaywright url
      :: EvInvokeModel MODEL_ID
           (optimize_request (scrape_error_msg e) (parse_text_resume text))
      :: rest.
Proof.
  intros Hne Hs Hp Hc.
  assert (Hrun : optimize_resume_json W url (Some text) st
                 = bind (optimize_resume_with_llm W (scrape_error_msg e)
                           (parse_text_resume text))
                     (save_and_respond W url (scrape_error_msg e)
                        (scrape_error_msg e) (parse_text_resume text))
                     (after st [EvHttpGet url; EvPlaywright url])).
  { unfold optimize_resume_json. unfold bind at 1.
    rewrite (scrape_fails_run url st e Hs Hp).
    destruct text; [congruence|reflexivity]. }
  unfold calls. rewrite Hrun. unfold bind.
  rewrite optimize_run. simpl trace. rewrite Hc. rewrite after_after. simpl app.
  destruct (save_trace url (scrape_error_msg e) (scrape_error_msg e)
              (parse_text_resume text)
              (parsed_or_fallback (parse_text_resume text)
                 match invoke_model_text W
                         (trace st ++ [EvHttpGet url; EvPlaywright url]) MODEL_ID
                         (optimize_request (scrape_error_msg e)
                            (parse_text_resume text)) with
                 | inl e0 => inl e0
                 | inr reply => json_loads W (json_text reply)
                 end)
              (after st [EvHttpGet url; EvPlaywright url;
                         EvInvokeModel MODEL_ID
                           (optimize_request (scrape_error_msg e)
                              (parse_text_resume text))]))
    as [rest Hrest].
  exists rest. rewrite Hrest. simpl trace. rewrite <- app_assoc.
  rewrite drop_app_length. reflexivity.
Qed.

End PipelineProofs.

(* ===================================================================== *)
(** * The connection to the store *)
(* ===================================================================== *)

Module DatabaseProofs.
Import Database.

(** X17.  When the server does not answer, [connect_to_mongo] raises what
    [server_info] raised, and by then [db.client] is already set while
    [db.database] is not: from a freshly loaded module the collection
    getters raise [AttributeError], and [close_mongo_connection] still
    closes the client that was made. *)
Theorem failed_connect_leaves_a_client E s e :
  let url := getenv E (py "MONGODB_URL") (py "mongodb://localhost:27017") in
  new_client E url = None ->
  server_info E (log s ++ [NewClient url]) url = Some e ->
  fst (connect_to_mongo E s) = inl e
  /\ client (db (snd (connect_to_mongo E s))) = Some url
  /\ database (db (snd (connect_to_mongo E s))) = database (db s)
  /\ (database (db s) = None ->
      (exists msg, get_optimizations_collection (snd (connect_to_mongo E s))
                   = inl (AttributeError msg))
      /\ (exists msg, get_users_collection (snd (connect_to_mongo E s))
                      = inl (AttributeError msg))
      /\ get_database (snd (connect_to_mongo E s)) = None)
  /\ exists before after,
       log (close_mongo_connection (snd (connect_to_mongo E s)))
       = before ++ Close url :: after.
Proof.
  intros url Hc Hs. unfold connect_to_mongo. fold url. rewrite Hc.
  cbv zeta. simpl log. rewrite Hs.
  assert (Hcoll : forall s' name,
            database (db s') = None ->
            exists msg, collection s' name = inl (AttributeError msg)).
  { intros s' name Hn. unfold collection. rewrite Hn. eexists. reflexivity. }
  destruct e; simpl;
    (split; [reflexivity|]); (split; [reflexivity|]); (split; [reflexivity|]);
    (split;
     [ intros Hn; unfold get_optimizations_collection, get_users_collection,
         get_database;
       split; [apply Hcoll; exact Hn|split; [apply Hcoll; exact Hn|exact Hn]]
     | unfold close_mongo_connection; simpl; eexists _, _; reflexivity ]).
Qed.

(** X18.  When the server answers, [connect_to_mongo] sets the database
    named by [MONGODB_DB_NAME], or [resume_optimizer] when that variable
    is not set, and the getters return its collections [optimizations] and
    [users]; closing the connection closes the client and leaves both
    attributes set. *)
Theorem connect_then_collections E s :
  let url := getenv E (py "MONGODB_URL") (py "mongodb://localhost:27017") in
  let name := getenv E (py "MONGODB_DB_NAME") (py "resume_optimizer") in
  new_client E url = None ->
  server_info E (log s ++ [NewClient url]) url = None ->
  get_item E name = None ->
  exists s',
    connect_to_mongo E s = (inr tt, s')
    /\ db s' = Db (Some url) (Some name)
    /\ get_optimizations_collection s' = inr (name, py "optimizations")
    /\ get_users_collection s' = inr (name, py "users")
    /\ db (close_mongo_connection s') = db s'
    /\ log (close_mongo_connection s')
       = log s' ++ [Close url; Print (py "Disconnected from MongoDB")]
    /\ (environ E (py "MONGODB_DB_NAME") = None -> name = py "resume_optimizer").
Proof.
  intros url name Hc Hs Hg. unfold connect_to_mongo. fold url. fold name.
  rewrite Hc. cbv zeta. simpl log. rewrite Hs, Hg.
  eexists. split; [reflexivity|]. simpl.
  repeat split. intros Hn. unfold name, getenv. now rewrite Hn.
Qed.

End DatabaseProofs.

(* ===================================================================== *)
(** * The further properties at concrete inputs *)
(* ===================================================================== *)

(** X8 at a site that cannot be reached. *)
Lemma unreachable_page_reports_static_error :
  scrape_job_posting Demo.unreachable_page Demo.url Demo.st0
  = (inr (scrape_error_msg Demo.connection_error,
          scrape_error_msg Demo.connection_error),
     after Demo.st0 [EvHttpGet Demo.url; EvPlaywright Demo.url]).
Proof.
  apply (static_error_is_the_one_reported Demo.unreachable_page Demo.url Demo.st0
           Demo.connection_error).
  - reflexivity.
  - exact I.
Defined.

Example unreachable_page_message :
  scrape_error_msg Demo.connection_error
  = py "Unable to scrape job posting. Error: All connection attempts failed".
Proof. reflexivity. Qed.

(** X9 at a page that shows next to nothing. *)
Lemma blocked_page_fixed_message :
  scrape_job_posting Demo.blocked_page Demo.url Demo.st0
  = (inr (extract_error_msg, extract_error_msg),
     after Demo.st0 [EvHttpGet Demo.url; EvPlaywright Demo.url]).
Proof.
  apply (short_texts_give_the_fixed_message Demo.blocked_page Demo.url Demo.st0
           (py "Loading...") (py " Please enable JavaScript ")).
  - reflexivity.
  - vm_compute. discriminate.
  - reflexivity.
  - vm_compute. discriminate.
Defined.

(** X10 at a site whose static fetch fails and whose rendering succeeds. *)
Lemma rendered_page_text :
  exists cleansed,
    result (scrape_job_posting Demo.rendered_page Demo.url) Demo.st0
    = inr (cleansed, normalize_lines (Demo.page_text 101))
    /\ result (cleanse_job_posting_with_llm Demo.rendered_page
                 (normalize_lines (Demo.page_text 101)))
         (after Demo.st0 [EvHttpGet Demo.url; EvPlaywright Demo.url])
       = inr cleansed.
Proof.
  apply (rendered_text_replaces_static Demo.rendered_page Demo.url Demo.st0
           (Demo.page_text 101)).
  - left. exists Demo.connection_error. reflexivity.
  - reflexivity.
  - vm_compute. reflexivity.
Defined.

(** X11 at a static page and a complete reply. *)
Lemma answered_page_record_read_back :
  exists response st',
    optimize_resume_json Demo.answered_page Demo.url (Some Demo.resume) Demo.st0
    = (inr response, st')
    /\ exists id doc fields,
         store st' = <[id := stored id doc]> (store Demo.st0)
         /\ make_ResumeResponse Demo.answered_page
              ((py "id", VStr (str_of_ObjectId Demo.answered_page id)) :: fields)
            = inr response
         /\ (ObjectId_is_valid Demo.answered_page
               (str_of_ObjectId Demo.answered_page id) = true ->
             ObjectId Demo.answered_page (str_of_ObjectId Demo.answered_page id)
             = id ->
             store_fault Demo.answered_page (trace st') = None ->
             get_optimization Demo.answered_page
               (str_of_ObjectId Demo.answered_page id) st'
             = (inr (VDict (stored id doc)), after st' [EvFindOne id])).
Proof.
  eexists _, _. split.
  - vm_compute. reflexivity.
  - apply (saved_record_is_retrievable Demo.answered_page Demo.url Demo.resume
             Demo.st0).
    vm_compute. reflexivity.
Defined.

Example answered_page_lookup :
  result
    (get_optimization Demo.answered_page (py "000000000000000000000003"))
    (snd (optimize_resume_json Demo.answered_page Demo.url (Some Demo.resume)
            Demo.st0))
  = inr (VDict
           [ (py "_id", VObjectId [0; 0; 0; 0; 0; 0; 0; 0; 0; 0; 0; 3]);
             (py "user_email", VStr (py "anonymous@example.com"));
             (py "job_url", VStr Demo.url);
             (py "job_posting_content", VStr Demo.object_text);
             (py "job_posting_raw", VStr (Demo.page_text 501));
             (py "original_resume", VStr Demo.resume);
             (py "optimized_resume", VStr (py "Python, AWS"));
             (py "suggestions", VList [VStr (py "Add Docker")]);
             (py "match_score", VFloat 0.8%float);
             (py "created_at", VStr (py "2024-01-01T00:00:00"));
             (py "updated_at", VStr (py "2024-01-01T00:00:00")) ]).
Proof. vm_compute. reflexivity. Qed.

(** X12 at a store that holds one record. *)
Lemma kept_record_deleted :
  exists st',
    delete_optimization Demo.script_page Demo.kept_id Demo.st1
    = (inr (VDict [(py "message", VStr (py "Optimization deleted successfully"))]),
       st')
    /\ store st' !! ObjectId Demo.script_page Demo.kept_id = None
    /\ (forall id, id <> ObjectId Demo.script_page Demo.kept_id ->
          store st' !! id = store Demo.st1 !! id)
    /\ (store_fault Demo.script_page (trace st') = None ->
        result (get_optimization Demo.script_page Demo.kept_id) st'
        = inl (HTTP 404 (py "Optimization not found"))
        /\ result (delete_optimization Demo.script_page Demo.kept_id) st'
           = inl (HTTP 404 (py "Optimization not found"))).
Proof.
  apply (delete_removes_that_record_only Demo.script_page Demo.kept_id Demo.st1
           Demo.kept_doc).
  - reflexivity.
  - vm_compute. reflexivity.
  - reflexivity.
Defined.

(** X13 at a store that holds one record, asked for another. *)
Lemma unknown_record_leaves_the_store :
  store (snd (get_optimization Demo.script_page Demo.kept_id Demo.st1))
  = store Demo.st1
  /\ store (snd (delete_optimization Demo.script_page Demo.unknown_id Demo.st1))
     = store Demo.st1
  /\ store (snd (delete_optimization Demo.script_page Demo.wrong_length_id
                   Demo.st1))
     = store Demo.st1.
Proof.
  split; [|split].
  - apply (only_a_successful_delete_changes_the_store Demo.script_page
             Demo.kept_id Demo.st1).
  - apply (only_a_successful_delete_changes_the_store Demo.script_page
             Demo.unknown_id Demo.st1).
    right. reflexivity.
  - apply (only_a_successful_delete_changes_the_store Demo.script_page
             Demo.wrong_length_id Demo.st1).
    left. reflexivity.
Defined.

(** A store that loses the connection after acting: the deletion raises
    the driver's exception, and the record is gone. *)
Example delete_with_lost_reply :
  result (delete_optimization Demo.lost_reply Demo.kept_id) Demo.st1
  = inl Demo.connection_lost
  /\ store Demo.st1 !! Demo.of_hex Demo.kept_id = Some Demo.kept_doc
  /\ store (snd (delete_optimization Demo.lost_reply Demo.kept_id Demo.st1))
       !! Demo.of_hex Demo.kept_id
     = None.
Proof. repeat split; vm_compute; reflexivity. Qed.

(** X14 at a reply that is the empty object. *)
Lemma empty_object_reply_raises :
  exists e,
    result (optimize_resume_json Demo.empty_object_page Demo.url (Some Demo.resume))
      Demo.st0 = inl e
    /\ (exn_type e = KeyError \/ exn_type e = TypeError)
    /\ store (snd (optimize_resume_json Demo.empty_object_page Demo.url
                     (Some Demo.resume) Demo.st0))
       = store Demo.st0.
Proof.
  apply (reply_without_field_is_not_stored Demo.empty_object_page Demo.url
           Demo.resume Demo.st0 (py "{}") (VDict [])).
  - discriminate.
  - intros tr. reflexivity.
  - intros tr job. reflexivity.
  - vm_compute. reflexivity.
  - left. eexists. reflexivity.
Defined.

Example empty_object_reply_key_error :
  result (optimize_resume_json Demo.empty_object_page Demo.url (Some Demo.resume))
    Demo.st0
  = inl (Exn KeyError (py "'optimized_resume'")).
Proof. vm_compute. reflexivity. Qed.

(** X15 at bytes that are no PDF, and at a text file that is not UTF-8. *)
Lemma not_a_pdf_rejected_after_scraping :
  optimize_resume Demo.script_page Demo.url
    (Some (py "resume.pdf", Utf8.ascii_bytes "hello")) None Demo.st0
  = (inl (HTTP 400 (py "Error parsing PDF: EOF marker not found")),
     snd (scrape_job_posting Demo.script_page Demo.url Demo.st0))
  /\ optimize_resume Demo.script_page Demo.url
       (Some (py "resume.txt", [Byte.x63; Byte.x76; Byte.xff])) None Demo.st0
     = (inl (Exn UnicodeDecodeError
               (py "'utf-8' codec can't decode byte 0xff in position 2: invalid start byte")),
        snd (scrape_job_posting Demo.script_page Demo.url Demo.st0)).
Proof.
  split.
  - apply (proj1 (upload_rejected_after_scraping Demo.script_page Demo.url
                    (py "resume.pdf") (Utf8.ascii_bytes "hello") None Demo.st0)
             Demo.not_a_pdf); reflexivity.
  - apply (proj2 (upload_rejected_after_scraping Demo.script_page Demo.url
                    (py "resume.txt") [Byte.x63; Byte.x76; Byte.xff] None
                    Demo.st0) eq_refl eq_refl).
Defined.

(** X16 at a site that cannot be reached. *)
Lemma unreachable_page_optimized_all_the_same :
  exists rest,
    calls (optimize_resume_json Demo.unreachable_page Demo.url (Some Demo.resume))
      Demo.st0
    = EvHttpGet Demo.url :: EvPlaywright Demo.url
      :: EvInvokeModel MODEL_ID
           (optimize_request (scrape_error_msg Demo.connection_error)
              (parse_text_resume Demo.resume))
      :: rest.
Proof.
  apply (failed_extraction_is_optimized_all_the_same Demo.unreachable_page
           Demo.url Demo.resume Demo.st0 Demo.connection_error).
  - discriminate.
  - reflexivity.
  - exact I.
  - reflexivity.
Defined.

(** X17 at a server that does not answer. *)
Lemma no_server_leaves_a_client :
  fst (Database.connect_to_mongo Database.no_server Database.loaded)
  = inl (Database.ServerSelectionTimeoutError
           (py "localhost:27017: [Errno 111] Connection refused"))
  /\ Database.client
       (Database.db (snd (Database.connect_to_mongo Database.no_server
                            Database.loaded)))
     = Some (py "mongodb://localhost:27017")
  /\ exists msg,
       Database.get_optimizations_collection
         (snd (Database.connect_to_mongo Database.no_server Database.loaded))
       = inl (Database.AttributeError msg).
Proof.
  destruct (DatabaseProofs.failed_connect_leaves_a_client Database.no_server
              Database.loaded
              (Database.ServerSelectionTimeoutError
                 (py "localhost:27017: [Errno 111] Connection refused"))
              eq_refl eq_refl) as (Hr & Hc & _ & Hn & _).
  split; [exact Hr|]. split; [exact Hc|].
  exact (proj1 (Hn eq_refl)).
Defined.

Example no_server_log :
  Database.log
    (Database.close_mongo_connection
       (snd (Database.connect_to_mongo Database.no_server Database.loaded)))
  = [ Database.NewClient (py "mongodb://localhost:27017");
      Database.ServerInfo (py "mongodb://localhost:27017");
      Database.Print (py "Unable to connect to MongoDB");
      Database.Close (py "mongodb://localhost:27017");
      Database.Print (py "Disconnected from MongoDB") ].
Proof. reflexivity. Qed.

(** X18 at a server that answers. *)
Lemma local_server_collections :
  exists s',
    Database.connect_to_mongo Database.local_server Database.loaded = (inr tt, s')
    /\ Database.get_optimizations_collection s'
       = inr (py "resumes", py "optimizations").
Proof.
  destruct (DatabaseProofs.connect_then_collections Database.local_server
              Database.loaded eq_refl eq_refl eq_refl)
    as (s' & Hrun & _ & Hopt & _).
  exists s'. split; [exact Hrun|exact Hopt].
Defined.

Example no_server_attribute_error :
  Database.get_optimizations_collection
    (snd (Database.connect_to_mongo Database.no_server Database.loaded))
  = inl (Database.AttributeError
           (py "'NoneType' object has no attribute 'optimizations'")).
Proof. reflexivity. Qed.

